(** * sillavibe: the economic-activity dashboard (index.py)

    A shallow embedding of the Streamlit script [index.py].  The script
    reads one CSV into a pandas DataFrame, offers two multiselect filters
    (년도, 지역), and renders the filtered table, its statistics and three
    chart panels (bar, line, correlation heatmap).

    Modelling conventions
    - A DataFrame is a list of rows in file order plus the names of its
      numeric columns.  The two columns the script reads by name are typed
      fields of a row: 년도 is an integer, 지역 a label.  The cells of the
      other numeric columns are integers (counts, in thousands of persons),
      stored positionally.  Non-numeric columns other than 지역 are left
      out: the script reads columns only by the names 년도, 지역 and the
      three metric names.
    - The frames of the model stand for the files the script expects: a
      년도 column of integers, a 지역 column with a text label in every
      row, and every other column the script reads numeric, with cells that
      pandas reads as 64-bit integers.  A file outside of these (a label
      column missing, a blank label, a metric column holding text, a cell
      too large for 64 bits) is no [Table]; its runs fail or draw in ways
      that are not modelled, and nothing is stated about them.
    - Strings are byte strings holding UTF-8, whose lexicographic byte order
      is Python's code-point order on [str].
    - The script is a computation in a state-and-exception monad over a
      world made of the object store, the Streamlit cache and the page.
    - Library calls (pandas, seaborn, Streamlit) are modelled by their
      documented behaviour; floating-point means are exact rationals and
      correlations exact reals.
    - Lines 1-16 (imports and the choice of a Hangul font for matplotlib)
      render nothing and read no data; they are not modelled. *)

From Stdlib Require Import List ZArith QArith Bool String Ascii Lia.
From Stdlib Require Import Permutation Sorted Reals Qreals Psatz.
Import ListNotations.

Local Open Scope string_scope.
Local Open Scope Z_scope.

(** ** Data model *)

Record Row : Type := mkRow {
  year   : Z;            (* df['년도'] *)
  region : string;       (* df['지역'] *)
  nums   : list Z        (* cells of the other numeric columns *)
}.

Record DataFrame : Type := mkDF {
  num_columns : list string;   (* names of the numeric columns besides 년도 *)
  rows        : list Row
}.

Definition col_year : string := "년도".
Definition col_region : string := "지역".

(** The aggregate region label. *)
Definition total_label : string := "계".

Definition Row_eq_dec (a b : Row) : {a = b} + {a <> b}.
Proof.
  decide equality.
  - apply (list_eq_dec Z.eq_dec).
  - apply string_dec.
  - apply Z.eq_dec.
Defined.

(** ** Python and pandas primitives *)

(** [Series.isin(values)]: the boolean mask entry of one cell. *)
Definition isin_Z (values : list Z) (x : Z) : bool :=
  existsb (Z.eqb x) values.

Definition isin_str (values : list string) (x : string) : bool :=
  existsb (String.eqb x) values.

(** [Series.unique()]: the distinct values in order of first appearance
    (pandas walks the column once, with a hash table of the values seen). *)
Fixpoint unique_from {A : Type} (eqb : A -> A -> bool) (seen l : list A) : list A :=
  match l with
  | [] => []
  | x :: t =>
      if existsb (eqb x) seen then unique_from eqb seen t
      else x :: unique_from eqb (x :: seen) t
  end.

Definition unique {A : Type} (eqb : A -> A -> bool) (l : list A) : list A :=
  unique_from eqb [] l.

(** [sorted(iterable)]: ascending and stable; written as an insertion sort. *)
Fixpoint insert {A : Type} (leb : A -> A -> bool) (x : A) (l : list A) : list A :=
  match l with
  | [] => [x]
  | y :: t => if leb x y then x :: y :: t else y :: insert leb x t
  end.

Fixpoint sorted {A : Type} (leb : A -> A -> bool) (l : list A) : list A :=
  match l with
  | [] => []
  | x :: t => insert leb x (sorted leb t)
  end.

(** [df[mask]]: boolean indexing keeps the rows whose mask entry is True,
    in frame order, and keeps the frame's columns. *)
Definition select_rows (mask : Row -> bool) (d : DataFrame) : DataFrame :=
  mkDF (num_columns d) (filter mask (rows d)).

(** [DataFrame.empty] *)
Definition empty (d : DataFrame) : bool :=
  match rows d with [] => true | _ :: _ => false end.

(** [select_dtypes(include=['number']).columns.tolist()] *)
Definition numeric_cols (d : DataFrame) : list string :=
  col_year :: num_columns d.

Fixpoint index_of (name : string) (names : list string) : option nat :=
  match names with
  | [] => None
  | n :: t => if String.eqb name n then Some O else option_map S (index_of name t)
  end.

(** The accessor of a numeric column, [None] when the frame has no numeric
    column of that name. *)
Definition numeric_column (d : DataFrame) (name : string) : option (Row -> Z) :=
  if String.eqb name col_year then Some year
  else option_map (fun i r => nth i (nums r) 0) (index_of name (num_columns d)).

(** ** Lines 37-47: the filter stage *)

Definition all_years (df : DataFrame) : list Z :=
  sorted Z.leb (unique Z.eqb (map year (rows df))).

Definition all_regions (df : DataFrame) : list string :=
  sorted String.leb (unique String.eqb (map region (rows df))).

(** [[region for region in all_regions if region != '계']] *)
Definition default_regions (df : DataFrame) : list string :=
  filter (fun region => negb (String.eqb region total_label)) (all_regions df).

(** [(df['년도'].isin(selected_years)) & (df['지역'].isin(selected_regions))] *)
Definition filter_mask (selected_years : list Z) (selected_regions : list string)
  (r : Row) : bool :=
  isin_Z selected_years (year r) && isin_str selected_regions (region r).

Definition filtered_df (df : DataFrame) (selected_years : list Z)
  (selected_regions : list string) : DataFrame :=
  select_rows (filter_mask selected_years selected_regions) df.

(** ** Lines 77 and 107: the chart subsets *)

(** A selectbox over no options returns Python's [None], which compares
    unequal to every cell. *)
Definition year_df (filtered_df : DataFrame) (comp_year : option Z) : DataFrame :=
  select_rows (fun r => match comp_year with
                        | Some y => Z.eqb (year r) y
                        | None => false
                        end) filtered_df.

Definition region_df (filtered_df : DataFrame) (trend_region : option string)
  : DataFrame :=
  select_rows (fun r => match trend_region with
                        | Some g => String.eqb (region r) g
                        | None => false
                        end) filtered_df.

(** ** seaborn: what the two categorical plots draw *)

Definition sum_Z (l : list Z) : Z := fold_right Z.add 0 l.

(** seaborn's default estimator, the arithmetic mean, in lowest terms. *)
Definition mean (l : list Z) : Q :=
  Qred (inject_Z (sum_Z l) / inject_Z (Z.of_nat (List.length l))).

(** [sns.barplot(data, x='지역', y=metric)]: one bar per distinct label of
    the x column, in order of first appearance, as tall as the mean of the
    y cells of that label's rows.  The script passes a metric name for y; in
    a frame of the model a metric name is a numeric column or no column at
    all, and [None] is the latter case: on a name that is no column of the
    data seaborn raises ValueError. *)
Definition barplot (data : DataFrame) (y : string) : option (list (string * Q)) :=
  match numeric_column data y with
  | None => None
  | Some cell =>
      Some (map (fun g => (g, mean (map cell
                   (filter (fun r => String.eqb (region r) g) (rows data)))))
                (unique String.eqb (map region (rows data))))
  end.

(** [sns.lineplot(data, x='년도', y=metric, marker='o')]: one marked point
    per distinct x, joined in ascending x, at the mean of the y cells of the
    rows with that x.  As for the bar plot, [None] is the case of a metric
    name that is no column of the data, on which seaborn raises
    ValueError. *)
Definition lineplot (data : DataFrame) (y : string) : option (list (Z * Q)) :=
  match numeric_column data y with
  | None => None
  | Some cell =>
      Some (map (fun x => (x, mean (map cell
                   (filter (fun r => Z.eqb (year r) x) (rows data)))))
                (sorted Z.leb (unique Z.eqb (map year (rows data)))))
  end.

(** ** pandas: [DataFrame.corr()] *)

Definition Qsum (l : list Q) : Q := fold_right Qplus 0%Q l.

(** The deviations of a numeric column from its mean. *)
Definition deviations (xs : list Z) : list Q :=
  map (fun x => (inject_Z x - mean xs)%Q) xs.

(** The sum of the products of the paired deviations of two columns. *)
Definition co_moment (xs ys : list Z) : Q :=
  Qsum (map (fun p => (fst p * snd p)%Q) (combine (deviations xs) (deviations ys))).

(** One entry of the matrix: the co-moment over the root of the product of
    the two sums of squares; NaN ([None]) when that product is zero. *)
Definition pearson (xs ys : list Z) : option R :=
  let d := (co_moment xs xs * co_moment ys ys)%Q in
  if Qeq_bool d 0 then None
  else Some (Q2R (co_moment xs ys) / sqrt (Q2R d))%R.

(** The numeric columns of a frame as value lists, ordered as
    [numeric_cols]. *)
Definition numeric_series (d : DataFrame) : list (list Z) :=
  map year (rows d)
  :: map (fun i => map (fun r => nth i (nums r) 0) (rows d))
         (seq 0 (List.length (num_columns d))).

Definition corr (d : DataFrame) : list (list (option R)) :=
  map (fun xs => map (pearson xs) (numeric_series d)) (numeric_series d).

(** ** Streamlit: the page and the widgets *)

Inductive scalar : Type :=
| SInt (z : Z)
| SStr (s : string)
| SNone.

(** An f-string, as its pieces in order. *)
Definition text : Type := list scalar.

Definition show_opt {A : Type} (show : A -> scalar) (v : option A) : scalar :=
  match v with Some x => show x | None => SNone end.

Inductive figure : Type :=
| BarPlot (title : text) (bars : list (string * Q))
| LinePlot (title : text) (points : list (Z * Q)) (xticks : list Z)
| Heatmap (title : text) (labels : list string) (cells : list (list (option R))).

Inductive element : Type :=
| Error (body : string)
| Warning (body : string)
| Info (body : string)
| Title (body : string)
| Header (body : string)
| Subheader (body : string)
| SidebarHeader (body : string)
| SidebarMultiselect (label : string) (options default : list scalar)
| Selectbox (label : string) (options : list scalar) (key : string)
| Write (body : text)
| Dataframe (data : DataFrame)
| ExpanderDescribe (label : string) (data : DataFrame)
| Pyplot (fig : figure).

(** What the browser holds for each widget: the positions picked in a
    multiselect ([None] while it is untouched) and the position picked in a
    selectbox (0 at first). *)
Record Session : Type := mkSession {
  pick_years        : option (list nat);
  pick_regions      : option (list nat);
  pick_bar_metric   : nat;
  pick_comp_year    : nat;
  pick_line_metric  : nat;
  pick_trend_region : nat
}.

Definition picked {A : Type} (options : list A) (positions : list nat) : list A :=
  flat_map (fun i => match nth_error options i with
                     | Some x => [x]
                     | None => []
                     end) positions.

Definition multiselect {A : Type} (options default : list A)
  (state : option (list nat)) : list A :=
  match state with
  | None => default
  | Some positions => picked options positions
  end.

Definition selectbox {A : Type} (options : list A) (position : nat) : option A :=
  match nth_error options position with
  | Some x => Some x
  | None => hd_error options
  end.

Definition metrics : list string :=
  ["경제활동인구 (천명)"; "취업자 (천명)"; "실업자 (천명)"].

(** ** The world the script runs in *)

Definition loc : Type := nat.

Inductive object : Type :=
| ODataFrame (d : DataFrame)
| OCorr (m : list (list (option R))).

(** An entry of [st.cache_data]: the pickled return value of [load_data]
    and the elements the call rendered, replayed on a hit. *)
Record CacheEntry : Type := mkEntry {
  cached_value    : option DataFrame;
  cached_elements : list element
}.

Record World : Type := mkWorld {
  heap  : list object;          (* objects by address *)
  cache : option CacheEntry;
  page  : list element          (* rendered so far, in order *)
}.

Inductive exn : Type :=
| FileNotFoundError
| ParserError
| ValueError
| TypeError.

Inductive outcome (A : Type) : Type :=
| Returned (a : A) (w : World)
| Raised (e : exn) (w : World).
Arguments Returned {A} a w.
Arguments Raised {A} e w.

Definition world_of {A : Type} (r : outcome A) : World :=
  match r with Returned _ w => w | Raised _ w => w end.

Definition M (A : Type) : Type := World -> outcome A.

Definition ret {A : Type} (a : A) : M A := fun w => Returned a w.

Definition bind {A B : Type} (m : M A) (k : A -> M B) : M B :=
  fun w => match m w with
           | Returned a w' => k a w'
           | Raised e w' => Raised e w'
           end.

Definition raise {A : Type} (e : exn) : M A := fun w => Raised e w.

Notation "x <- m ;; k" := (bind m (fun x => k))
  (at level 61, m at next level, right associativity).
Notation "m ;; k" := (bind m (fun _ => k))
  (at level 61, right associativity).

(** [try: body except <caught>: handler] *)
Definition try_except {A : Type} (body : M A) (caught : exn -> bool)
  (handler : M A) : M A :=
  fun w => match body w with
           | Returned a w' => Returned a w'
           | Raised e w' => if caught e then handler w' else Raised e w'
           end.

Definition alloc (o : object) : M loc :=
  fun w => Returned (List.length (heap w))
                    (mkWorld (heap w ++ [o])%list (cache w) (page w)).

Definition frame_at (l : loc) : M DataFrame :=
  fun w => match nth_error (heap w) l with
           | Some (ODataFrame d) => Returned d w
           | _ => Raised TypeError w
           end.

(** A pandas operation that builds a new frame from an existing one. *)
Definition derive (src : loc) (f : DataFrame -> DataFrame) : M loc :=
  d <- frame_at src ;; alloc (ODataFrame (f d)).

Definition emit (e : element) : M unit :=
  fun w => Returned tt (mkWorld (heap w) (cache w) (page w ++ [e])%list).

Fixpoint emit_all (es : list element) : M unit :=
  match es with
  | [] => ret tt
  | e :: t => emit e ;; emit_all t
  end.

(** ** Lines 19-28: loading *)

(** What is at the path '경제활동_통합.csv': no file, a file that
    [pd.read_csv] cannot parse, or a table.  [Table d] stands for a file
    that loads into the frame [d] of the data model (see the conventions at
    the head of the file); a readable file outside the data model has no
    counterpart here. *)
Inductive csv : Type :=
| NoSuchFile
| Malformed
| Table (d : DataFrame).

Definition read_csv (file : csv) : M loc :=
  match file with
  | NoSuchFile => raise FileNotFoundError
  | Malformed => raise ParserError
  | Table d => alloc (ODataFrame d)
  end.

Definition is_FileNotFoundError (e : exn) : bool :=
  match e with FileNotFoundError => true | _ => false end.

Definition file_missing_message : string :=
  "'경제활동_통합.csv' 파일을 찾을 수 없습니다. app.py와 같은 폴더에 있는지 확인해주세요.".

Definition load_data (file : csv) : M (option loc) :=
  try_except
    (df <- read_csv file ;; ret (Some df))
    is_FileNotFoundError
    (emit (Error file_missing_message) ;; ret None).

(** [@st.cache_data]: a miss runs the function and stores its return value
    with the elements it rendered; a hit replays those elements and hands
    out a fresh copy of the value.  An exception stores nothing. *)
Definition cache_data (f : M (option loc)) : M (option loc) :=
  fun w =>
    match cache w with
    | Some entry =>
        (emit_all (cached_elements entry) ;;
         match cached_value entry with
         | None => ret None
         | Some d => l <- alloc (ODataFrame d) ;; ret (Some l)
         end) w
    | None =>
        match f w with
        | Raised e w' => Raised e w'
        | Returned None w' =>
            Returned None
              (mkWorld (heap w')
                 (Some (mkEntry None (skipn (List.length (page w)) (page w'))))
                 (page w'))
        | Returned (Some l) w' =>
            match nth_error (heap w') l with
            | Some (ODataFrame d) =>
                Returned (Some l)
                  (mkWorld (heap w')
                     (Some (mkEntry (Some d) (skipn (List.length (page w)) (page w'))))
                     (page w'))
            | _ => Raised TypeError w'
            end
        end
    end.

(** ** Lines 33-57: filters, table, statistics *)

Definition st_multiselect {A : Type} (show : A -> scalar) (label : string)
  (options default : list A) (state : option (list nat)) : M (list A) :=
  emit (SidebarMultiselect label (map show options) (map show default)) ;;
  ret (multiselect options default state).

Definition st_selectbox {A : Type} (show : A -> scalar) (label : string)
  (options : list A) (key : string) (position : nat) : M (option A) :=
  emit (Selectbox label (map show options) key) ;;
  ret (selectbox options position).

Definition no_selection_message : string := "데이터를 먼저 선택해주세요.".

(** ** Lines 62-89: the bar chart *)

Definition sns_barplot (data : loc) (y : option string) : M (list (string * Q)) :=
  d <- frame_at data ;;
  match y with
  | None => raise ValueError
  | Some name =>
      match barplot d name with
      | Some bars => ret bars
      | None => raise ValueError
      end
  end.

Definition bar_chart (s : Session) (filtered : loc) (selected_years : list Z)
  : M unit :=
  emit (Subheader "📊 지역별 데이터 비교 (막대 그래프)") ;;
  fd <- frame_at filtered ;;
  if negb (empty fd) && (0 <? List.length selected_years)%nat then
    bar_metric <- st_selectbox SStr "비교할 지표를 선택하세요:" metrics
                    "bar_metric" (pick_bar_metric s) ;;
    comp_year <- st_selectbox SInt "비교할 연도를 선택하세요:" selected_years
                    "comp_year" (pick_comp_year s) ;;
    ydf <- derive filtered (fun d => year_df d comp_year) ;;
    yd <- frame_at ydf ;;
    if negb (empty yd) then
      bars <- sns_barplot ydf bar_metric ;;
      emit (Pyplot (BarPlot [show_opt SInt comp_year; SStr "년 지역별 ";
                             show_opt SStr bar_metric] bars))
    else
      emit (Warning "선택한 연도에 대한 데이터가 없습니다.")
  else
    emit (Info no_selection_message).

(** ** Lines 93-119: the line chart *)

Definition sns_lineplot (data : loc) (y : option string) : M (list (Z * Q)) :=
  d <- frame_at data ;;
  match y with
  | None => raise ValueError
  | Some name =>
      match lineplot d name with
      | Some points => ret points
      | None => raise ValueError
      end
  end.

Definition line_chart (s : Session) (filtered : loc)
  (selected_regions : list string) : M unit :=
  emit (Subheader "📉 연도별 추세 분석 (라인 그래프)") ;;
  fd <- frame_at filtered ;;
  if negb (empty fd) && (0 <? List.length selected_regions)%nat then
    line_metric <- st_selectbox SStr "분석할 지표를 선택하세요:" metrics
                     "line_metric" (pick_line_metric s) ;;
    trend_region <- st_selectbox SStr "분석할 지역을 선택하세요:" selected_regions
                     "trend_region" (pick_trend_region s) ;;
    rdf <- derive filtered (fun d => region_df d trend_region) ;;
    rd <- frame_at rdf ;;
    if negb (empty rd) then
      points <- sns_lineplot rdf line_metric ;;
      emit (Pyplot (LinePlot [show_opt SStr trend_region; SStr "의 연도별 ";
                              show_opt SStr line_metric; SStr " 변화 추이"]
                             points
                             (sorted Z.leb (unique Z.eqb (map year (rows rd))))))
    else
      emit (Warning "선택한 지역에 대한 데이터가 없습니다.")
  else
    emit (Info no_selection_message).

(** ** Lines 123-140: the correlation heatmap *)

Definition too_few_columns_message : string :=
  "상관관계를 계산하기에 숫자 열이 부족합니다.".

Definition heatmap (filtered : loc) : M unit :=
  emit (Subheader "🔥 상관관계 히트맵") ;;
  fd <- frame_at filtered ;;
  if negb (empty fd) then
    if (1 <? List.length (numeric_cols fd))%nat then
      c <- alloc (OCorr (corr fd)) ;;
      emit (Pyplot (Heatmap [SStr "주요 지표 간 상관관계"] (numeric_cols fd) (corr fd)))
    else
      emit (Warning too_few_columns_message)
  else
    emit (Info no_selection_message).

(** ** The script, top to bottom *)

Definition body (s : Session) (df : loc) : M unit :=
  emit (Title "대한민국 경제활동 데이터 분석") ;;
  emit (SidebarHeader "데이터 필터") ;;
  d <- frame_at df ;;
  selected_years <- st_multiselect SInt "년도 선택" (all_years d) (all_years d)
                      (pick_years s) ;;
  selected_regions <- st_multiselect SStr "지역 선택" (all_regions d)
                        (default_regions d) (pick_regions s) ;;
  filtered <- derive df (fun d => filtered_df d selected_years selected_regions) ;;
  fd <- frame_at filtered ;;
  emit (Header "필터링된 데이터") ;;
  emit (Write [SStr "총 "; SInt (Z.of_nat (List.length (rows fd))); SStr "개의 데이터"]) ;;
  emit (Dataframe fd) ;;
  emit (ExpanderDescribe "📈 주요 통계 보기" fd) ;;
  emit (Header "데이터 시각화") ;;
  bar_chart s filtered selected_years ;;
  line_chart s filtered selected_regions ;;
  heatmap filtered.

Definition script (file : csv) (s : Session) : M unit :=
  df <- cache_data (load_data file) ;;
  match df with
  | Some df => body s df
  | None => ret tt
  end.

(** One run of the script: a fresh interpreter state and an empty page; only
    the cache outlives a run. *)
Definition run (file : csv) (s : Session) (c : option CacheEntry) : outcome unit :=
  script file s (mkWorld [] c []).

(** ** Notions used in the statements *)

(** [small] is a subsequence of [big]: some elements dropped, none moved. *)
Inductive Subsequence {A : Type} : list A -> list A -> Prop :=
| sub_nil : Subsequence [] []
| sub_keep x small big : Subsequence small big -> Subsequence (x :: small) (x :: big)
| sub_drop x small big : Subsequence small big -> Subsequence small (x :: big).

(** The world after rendering [es], and after storing a new object. *)
Definition rendering (w : World) (es : list element) : World :=
  mkWorld (heap w) (cache w) (page w ++ es)%list.

Definition storing (w : World) (o : object) : World :=
  mkWorld (heap w ++ [o])%list (cache w) (page w).

(** The world the body starts in after a load of [d] that rendered [es]. *)
Definition loaded (d : DataFrame) (es : list element) : World :=
  mkWorld [ODataFrame d] (Some (mkEntry (Some d) es)) es.

(** The cache entry left by a run that found no file. *)
Definition missing_entry : CacheEntry :=
  mkEntry None [Error file_missing_message].

(** The two selections of a run, as lines 38 and 44 obtain them. *)
Definition selected_years (d : DataFrame) (s : Session) : list Z :=
  multiselect (all_years d) (all_years d) (pick_years s).

Definition selected_regions (d : DataFrame) (s : Session) : list string :=
  multiselect (all_regions d) (default_regions d) (pick_regions s).

(** A computation preserves the store when, however it ends, every object
    that was in the store is still there, unchanged and at its address, the
    cache entry is the one it started with, and what was on the page is
    still its beginning. *)
Definition extends (w w' : World) : Prop :=
  (forall l o, nth_error (heap w) l = Some o -> nth_error (heap w') l = Some o)
  /\ cache w' = cache w
  /\ exists es, page w' = (page w ++ es)%list.

Definition preserves_store {A : Type} (m : M A) : Prop :=
  forall w, extends w (world_of (m w)).

(** The reading of the bar chart in which every bar is as tall as the
    metric cell of a row of its region. *)
Definition bars_are_row_values (cell : Row -> Z) (subset : DataFrame)
  (bars : list (string * Q)) : Prop :=
  forall g h, In (g, h) bars ->
  exists r, In r (rows subset) /\ region r = g /\ (h == inject_Z (cell r))%Q.

(** Pearson's coefficient in its textbook form, cov(X,Y)/(σX·σY), with the
    sample covariance and the sample standard deviations. *)
Definition covariance (xs ys : list Z) : R :=
  (Q2R (co_moment xs ys) / (INR (List.length xs) - 1))%R.

Definition std_dev (xs : list Z) : R := sqrt (covariance xs xs).

Definition pearson_by_the_book (xs ys : list Z) : R :=
  (covariance xs ys / (std_dev xs * std_dev ys))%R.

(** A column varies when it holds two different values. *)
Definition varies (xs : list Z) : Prop :=
  exists a b, In a xs /\ In b xs /\ a <> b.

(** ** Sample data *)

(** The three-row sample: columns 년도, 지역 and the three metrics. *)
Definition sample : DataFrame :=
  mkDF metrics
       [ mkRow 2020 "A" [100; 90; 10];
         mkRow 2020 "B" [200; 180; 20];
         mkRow 2021 "A" [110; 95; 15] ].

(** The cell of 취업자 (천명), the second metric. *)
Definition employed (r : Row) : Z := nth 1 (nums r) 0.

(** The session of a first visit, and the one in which 취업자 (천명) is
    picked in both metric boxes. *)
Definition untouched : Session := mkSession None None 0 0 0 0.

Definition employed_picked : Session := mkSession None None 1 0 1 0.

(** The sample with only the year 2020 selected. *)
Definition one_year : DataFrame := filtered_df sample [2020] ["A"; "B"].

(** The sample with a row of the aggregate region. *)
Definition total_row : Row := mkRow 2020 "계" [300; 270; 30].

Definition with_total : DataFrame :=
  mkDF metrics (rows sample ++ [total_row])%list.

(** The same region twice in one year. *)
Definition repeated : DataFrame :=
  mkDF metrics
       [ mkRow 2020 "A" [100; 90; 10];
         mkRow 2020 "A" [120; 100; 20] ].

(** A file with the two label columns and nothing else, and a session on it
    that selects 2020, 2021 and A, D, then asks the charts for 2021 and D. *)
Definition labels_only : DataFrame :=
  mkDF [] [ mkRow 2020 "A" []; mkRow 2021 "B" []; mkRow 2022 "D" [] ].

Definition labels_session : Session :=
  mkSession (Some [0; 1]%nat) (Some [0; 2]%nat) 0 1 0 1.

(** Worlds for the stage examples: the loaded frame at address 0 and, where
    there is one, the filtered frame at address 1. *)
Definition repeated_world : World := mkWorld [ODataFrame repeated] None [].

Definition sample_world (Y : list Z) (R : list string) : World :=
  mkWorld [ODataFrame sample; ODataFrame (filtered_df sample Y R)] None [].

(** ** Page fragments *)

(** What the bar chart and the line chart render before their plot or
    warning, and the subheader of the heatmap. *)
Definition bar_head (Y : list Z) : list element :=
  [Subheader "📊 지역별 데이터 비교 (막대 그래프)";
   Selectbox "비교할 지표를 선택하세요:" (map SStr metrics) "bar_metric";
   Selectbox "비교할 연도를 선택하세요:" (map SInt Y) "comp_year"].

Definition line_head (R : list string) : list element :=
  [Subheader "📉 연도별 추세 분석 (라인 그래프)";
   Selectbox "분석할 지표를 선택하세요:" (map SStr metrics) "line_metric";
   Selectbox "분석할 지역을 선택하세요:" (map SStr R) "trend_region"].

Definition bar_note : list element :=
  [Subheader "📊 지역별 데이터 비교 (막대 그래프)"; Info no_selection_message].

Definition line_note : list element :=
  [Subheader "📉 연도별 추세 분석 (라인 그래프)"; Info no_selection_message].

Definition heat_note : list element :=
  [Subheader "🔥 상관관계 히트맵"; Info no_selection_message].

(** What the body renders down to the header of the charts, for the
    loaded frame [d] and the filtered frame [fd]. *)
Definition table_part (d fd : DataFrame) : list element :=
  [Title "대한민국 경제활동 데이터 분석";
   SidebarHeader "데이터 필터";
   SidebarMultiselect "년도 선택" (map SInt (all_years d)) (map SInt (all_years d));
   SidebarMultiselect "지역 선택" (map SStr (all_regions d))
                      (map SStr (default_regions d));
   Header "필터링된 데이터";
   Write [SStr "총 "; SInt (Z.of_nat (List.length (rows fd))); SStr "개의 데이터"];
   Dataframe fd;
   ExpanderDescribe "📈 주요 통계 보기" fd;
   Header "데이터 시각화"].

(** The names of the columns of a frame. *)
Definition columns (d : DataFrame) : list string :=
  col_year :: col_region :: num_columns d.

Definition is_raised {A : Type} (r : outcome A) : bool :=
  match r with Raised _ _ => true | Returned _ _ => false end.

(** The cell of a matrix at row [i] and column [j], when there is one. *)
Definition entry {A : Type} (m : list (list A)) (i j : nat) : option A :=
  match nth_error m i with
  | Some row => nth_error row j
  | None => None
  end.

(** * Properties *)

(** ** Membership tests *)

Lemma isin_Z_In (values : list Z) (x : Z) :
  isin_Z values x = true <-> In x values.
Proof.
  unfold isin_Z. rewrite existsb_exists. split.
  - intros (y & Hy & E). apply Z.eqb_eq in E. now subst.
  - intros H. exists x. split; [assumption | apply Z.eqb_refl].
Qed.

Lemma isin_str_In (values : list string) (x : string) :
  isin_str values x = true <-> In x values.
Proof.
  unfold isin_str. rewrite existsb_exists. split.
  - intros (y & Hy & E). apply String.eqb_eq in E. now subst.
  - intros H. exists x. split; [assumption | apply String.eqb_refl].
Qed.

Lemma filter_mask_true (Y : list Z) (R : list string) (r : Row) :
  filter_mask Y R r = true <-> In (year r) Y /\ In (region r) R.
Proof.
  unfold filter_mask. now rewrite andb_true_iff, isin_Z_In, isin_str_In.
Qed.

(** ** [unique] and [sorted] *)

Section Unique.
Context {A : Type} (eqb : A -> A -> bool).
Hypothesis eqb_eq : forall x y, eqb x y = true <-> x = y.

Lemma existsb_eqb_In (x : A) (l : list A) : existsb (eqb x) l = true <-> In x l.
Proof.
  rewrite existsb_exists. split.
  - intros (y & Hy & E). apply eqb_eq in E. now subst.
  - intros H. exists x. split; [assumption | now apply eqb_eq].
Qed.

Lemma unique_from_In (l seen : list A) (x : A) :
  In x (unique_from eqb seen l) <-> In x l /\ ~ In x seen.
Proof.
  revert seen. induction l as [|a t IH]; intros seen; simpl.
  - tauto.
  - destruct (existsb (eqb a) seen) eqn:E.
    + apply existsb_eqb_In in E. rewrite IH. split.
      * tauto.
      * intros [[->|H] N]; tauto.
    + assert (Hn : ~ In a seen).
      { intros H. apply existsb_eqb_In in H. congruence. }
      simpl. rewrite IH. simpl. split.
      * intros [->|[H N]]; [tauto|]. split; [tauto|]. intros F. apply N. now right.
      * intros [[->|H] N]; [now left|].
        destruct (existsb (eqb a) [x]) eqn:Ex.
        -- apply existsb_eqb_In in Ex. destruct Ex as [->|[]]. now left.
        -- right. split; [assumption|]. intros [->|F]; [|tauto].
           simpl in Ex. rewrite (proj2 (eqb_eq x x) eq_refl) in Ex. discriminate.
Qed.

Lemma unique_from_NoDup (l seen : list A) : NoDup (unique_from eqb seen l).
Proof.
  revert seen. induction l as [|a t IH]; intros seen; simpl.
  - constructor.
  - destruct (existsb (eqb a) seen); [apply IH|].
    constructor; [|apply IH].
    rewrite unique_from_In. simpl. tauto.
Qed.

Lemma unique_In (l : list A) (x : A) : In x (unique eqb l) <-> In x l.
Proof. unfold unique. rewrite unique_from_In. simpl. tauto. Qed.

Lemma unique_NoDup (l : list A) : NoDup (unique eqb l).
Proof. apply unique_from_NoDup. Qed.

(** A column without repeated values is its own [unique]. *)
Lemma unique_from_fresh (l seen : list A) :
  NoDup l -> (forall x, In x l -> ~ In x seen) -> unique_from eqb seen l = l.
Proof.
  revert seen. induction l as [|a t IH]; intros seen Hnd Hs; simpl; [reflexivity|].
  inversion Hnd as [|? ? Ha Ht]; subst.
  destruct (existsb (eqb a) seen) eqn:E.
  - apply existsb_eqb_In in E. exfalso. apply (Hs a (or_introl eq_refl) E).
  - f_equal. apply IH; [assumption|].
    intros x Hx [->|F]; [contradiction|]. apply (Hs x (or_intror Hx) F).
Qed.

Lemma unique_NoDup_id (l : list A) : NoDup l -> unique eqb l = l.
Proof. intros H. apply unique_from_fresh; [assumption | intros x _ []]. Qed.
End Unique.

Section Sorted.
Context {A : Type} (leb : A -> A -> bool).

Lemma insert_perm (x : A) (l : list A) : Permutation (insert leb x l) (x :: l).
Proof.
  induction l as [|y t IH]; simpl; [reflexivity|].
  destruct (leb x y); [reflexivity|].
  rewrite IH. apply perm_swap.
Qed.

Lemma sorted_perm (l : list A) : Permutation (sorted leb l) l.
Proof.
  induction l as [|x t IH]; simpl; [reflexivity|].
  rewrite insert_perm. now constructor.
Qed.

Lemma sorted_In (l : list A) (x : A) : In x (sorted leb l) <-> In x l.
Proof.
  split; apply Permutation_in; [|symmetry]; apply sorted_perm.
Qed.

Lemma sorted_NoDup (l : list A) : NoDup l -> NoDup (sorted leb l).
Proof.
  apply Permutation_NoDup. symmetry. apply sorted_perm.
Qed.

Hypothesis leb_total : forall x y, leb x y = true \/ leb y x = true.

Lemma insert_sorted (x : A) (l : list A) :
  LocallySorted (fun a b => leb a b = true) l ->
  LocallySorted (fun a b => leb a b = true) (insert leb x l).
Proof.
  induction 1 as [|y|y z t Hs IH Hyz]; simpl.
  - constructor.
  - destruct (leb x y) eqn:E.
    + now repeat constructor.
    + destruct (leb_total x y) as [F|F]; [congruence|]. now repeat constructor.
  - destruct (leb x y) eqn:E.
    + now repeat constructor.
    + destruct (leb_total x y) as [F|F]; [congruence|].
      simpl in IH. destruct (leb x z) eqn:E'.
      * now repeat constructor.
      * now constructor.
Qed.

Lemma sorted_sorted (l : list A) :
  LocallySorted (fun a b => leb a b = true) (sorted leb l).
Proof.
  induction l as [|x t IH]; simpl; [constructor | now apply insert_sorted].
Qed.
End Sorted.

Lemma sorted_Z_ascending (l : list Z) :
  NoDup l -> StronglySorted Z.lt (sorted Z.leb l).
Proof.
  intros Hnd.
  assert (Hle : StronglySorted Z.le (sorted Z.leb l)).
  { apply Sorted_StronglySorted; [intros x y z; apply Z.le_trans|].
    apply Sorted_LocallySorted_iff.
    assert (Hb : LocallySorted (fun a b => Z.leb a b = true) (sorted Z.leb l)).
    { apply sorted_sorted. intros x y.
      destruct (Z.le_ge_cases x y); [left | right]; now apply Z.leb_le. }
    induction Hb as [|a|a b t _ IH Hab]; constructor;
      [assumption | now apply Z.leb_le]. }
  apply (sorted_NoDup Z.leb) in Hnd.
  induction Hle as [|a t Ht IH Ha]; [constructor|].
  inversion Hnd as [|? ? Hna Hnt]; subst.
  constructor; [now apply IH|].
  rewrite Forall_forall in *. intros x Hx.
  specialize (Ha x Hx). assert (a <> x) by (intros ->; contradiction). lia.
Qed.

(** ** The filter stage *)

Lemma filtered_df_In (df : DataFrame) (Y : list Z) (R : list string) (r : Row) :
  In r (rows (filtered_df df Y R)) <->
  In r (rows df) /\ In (year r) Y /\ In (region r) R.
Proof.
  unfold filtered_df, select_rows. simpl.
  now rewrite filter_In, filter_mask_true.
Qed.

Lemma filter_Subsequence {A : Type} (f : A -> bool) (l : list A) :
  Subsequence (filter f l) l.
Proof.
  induction l as [|x t IH]; simpl; [constructor|].
  destruct (f x); now constructor.
Qed.

Lemma filter_count_occ (f : Row -> bool) (l : list Row) (r : Row) :
  count_occ Row_eq_dec (filter f l) r =
  if f r then count_occ Row_eq_dec l r else O.
Proof.
  induction l as [|x t IH]; simpl.
  - now destruct (f r).
  - destruct (Row_eq_dec x r) as [->|Hne].
    + destruct (f r) eqn:E; simpl.
      * destruct (Row_eq_dec r r); [now rewrite IH | contradiction].
      * assumption.
    + destruct (f x); simpl; [|assumption].
      destruct (Row_eq_dec x r); [contradiction | assumption].
Qed.

(** C1.  For every dataset and every selection of years [Y] and regions [R],
    a row is in the filtered result exactly when it is a row of the dataset
    whose year is in [Y] and whose region is in [R]; the columns are those of
    the dataset; and an empty [Y] or an empty [R] gives an empty result. *)
Theorem filter_stage_membership (df : DataFrame) (Y : list Z) (R : list string) :
  (forall r, In r (rows (filtered_df df Y R)) <->
             In r (rows df) /\ In (year r) Y /\ In (region r) R)
  /\ num_columns (filtered_df df Y R) = num_columns df
  /\ rows (filtered_df df [] R) = []
  /\ rows (filtered_df df Y []) = []
  /\ empty (filtered_df df [] R) = true
  /\ empty (filtered_df df Y []) = true.
Proof.
  assert (HY : rows (filtered_df df [] R) = []).
  { unfold filtered_df, select_rows, filter_mask. simpl.
    induction (rows df) as [|x t IH]; simpl; [reflexivity | assumption]. }
  assert (HR : rows (filtered_df df Y []) = []).
  { unfold filtered_df, select_rows, filter_mask. simpl.
    induction (rows df) as [|x t IH]; simpl; [reflexivity|].
    now rewrite andb_false_r. }
  split; [intros r; apply filtered_df_In|].
  split; [reflexivity|].
  split; [assumption|]. split; [assumption|].
  unfold empty. now rewrite HY, HR.
Qed.

(** C7.  Filtering the filtered result again with the same years and regions
    changes nothing. *)
Theorem filter_idempotent (df : DataFrame) (Y : list Z) (R : list string) :
  filtered_df (filtered_df df Y R) Y R = filtered_df df Y R.
Proof.
  unfold filtered_df, select_rows. simpl. f_equal.
  induction (rows df) as [|x t IH]; simpl; [reflexivity|].
  destruct (filter_mask Y R x) eqn:E; simpl; [|assumption].
  rewrite E. now f_equal.
Qed.

Lemma Subsequence_trans {A : Type} (l1 l2 l3 : list A) :
  Subsequence l1 l2 -> Subsequence l2 l3 -> Subsequence l1 l3.
Proof.
  intros H12 H23. revert l1 H12.
  induction H23 as [|x s b _ IH|x s b _ IH]; intros l1 H12.
  - assumption.
  - inversion H12; subst; constructor; now apply IH.
  - constructor. now apply IH.
Qed.

(** C10.  The filtered rows are a subsequence of the dataset's rows: none is
    altered or moved; a row whose year is in [Y] and whose region is in [R]
    occurs as often as in the dataset, and any other row not at all.  The
    rows the bar chart and the line chart take from the filtered frame are in
    turn subsequences of the dataset's rows. *)
Theorem filter_is_subsequence (df : DataFrame) (Y : list Z) (R : list string) :
  Subsequence (rows (filtered_df df Y R)) (rows df)
  /\ (forall r, In (year r) Y -> In (region r) R ->
                count_occ Row_eq_dec (rows (filtered_df df Y R)) r =
                count_occ Row_eq_dec (rows df) r)
  /\ (forall r, ~ (In (year r) Y /\ In (region r) R) ->
                count_occ Row_eq_dec (rows (filtered_df df Y R)) r = O)
  /\ (forall comp_year,
        Subsequence (rows (year_df (filtered_df df Y R) comp_year)) (rows df))
  /\ (forall trend_region,
        Subsequence (rows (region_df (filtered_df df Y R) trend_region)) (rows df)).
Proof.
  assert (H : Subsequence (rows (filtered_df df Y R)) (rows df))
    by apply filter_Subsequence.
  assert (Hc : forall r, count_occ Row_eq_dec (rows (filtered_df df Y R)) r =
                         if filter_mask Y R r
                         then count_occ Row_eq_dec (rows df) r else O)
    by (intros r; apply (filter_count_occ (filter_mask Y R))).
  split; [assumption|]. split; [|split].
  - intros r Hy Hr. rewrite Hc.
    now rewrite (proj2 (filter_mask_true Y R r) (conj Hy Hr)).
  - intros r Hn. rewrite Hc.
    destruct (filter_mask Y R r) eqn:E; [|reflexivity].
    apply filter_mask_true in E. contradiction.
  - split; intros c; (eapply Subsequence_trans; [apply filter_Subsequence | exact H]).
Qed.

Lemma filter_is_subsequence_sample :
  count_occ Row_eq_dec (rows (filtered_df sample [2020] ["A"; "B"]))
            (mkRow 2020 "A" [100; 90; 10]) =
  count_occ Row_eq_dec (rows sample) (mkRow 2020 "A" [100; 90; 10])
  /\ count_occ Row_eq_dec (rows (filtered_df sample [2020] ["A"; "B"]))
               (mkRow 2021 "A" [110; 95; 15]) = O.
Proof.
  split.
  - apply (proj1 (proj2 (filter_is_subsequence sample [2020] ["A"; "B"])));
      simpl; tauto.
  - apply (proj1 (proj2 (proj2 (filter_is_subsequence sample [2020] ["A"; "B"])))).
    simpl. intros [[E|[]] _]. discriminate.
Defined.

(** ** The store only grows *)

Lemma extends_refl (w : World) : extends w w.
Proof.
  split; [auto|]. split; [reflexivity|]. exists []. now rewrite app_nil_r.
Qed.

Lemma extends_trans (w1 w2 w3 : World) :
  extends w1 w2 -> extends w2 w3 -> extends w1 w3.
Proof.
  intros (H1 & C1 & es1 & P1) (H2 & C2 & es2 & P2).
  split; [auto|]. split; [congruence|].
  exists (es1 ++ es2)%list. now rewrite P2, P1, app_assoc.
Qed.

Lemma preserves_ret {A : Type} (a : A) : preserves_store (ret a).
Proof. intros w. apply extends_refl. Qed.

Lemma preserves_raise {A : Type} (e : exn) : preserves_store (@raise A e).
Proof. intros w. apply extends_refl. Qed.

Lemma preserves_bind {A B : Type} (m : M A) (k : A -> M B) :
  preserves_store m -> (forall a, preserves_store (k a)) ->
  preserves_store (bind m k).
Proof.
  intros Hm Hk w. unfold bind. specialize (Hm w).
  destruct (m w) as [a w'|e w']; simpl in *; [|assumption].
  eapply extends_trans; [eassumption | apply Hk].
Qed.

Lemma preserves_emit (e : element) : preserves_store (emit e).
Proof.
  intros w. split; [auto|]. split; [reflexivity|]. now exists [e].
Qed.

Lemma preserves_alloc (o : object) : preserves_store (alloc o).
Proof.
  intros w. split; [|split; [reflexivity|]].
  - simpl. intros l o' H.
    rewrite nth_error_app1; [assumption|].
    apply nth_error_Some. congruence.
  - exists []. simpl. now rewrite app_nil_r.
Qed.

Lemma preserves_frame_at (l : loc) : preserves_store (frame_at l).
Proof.
  intros w. unfold frame_at.
  destruct (nth_error (heap w) l) as [[d|m]|]; apply extends_refl.
Qed.

Lemma preserves_derive (l : loc) (f : DataFrame -> DataFrame) :
  preserves_store (derive l f).
Proof.
  apply preserves_bind; [apply preserves_frame_at | intros; apply preserves_alloc].
Qed.

Lemma preserves_if {A : Type} (b : bool) (m1 m2 : M A) :
  preserves_store m1 -> preserves_store m2 ->
  preserves_store (if b then m1 else m2).
Proof. now destruct b. Qed.

Create HintDb store.
#[local] Hint Resolve preserves_ret preserves_raise preserves_emit preserves_alloc
  preserves_frame_at preserves_derive : store.

Ltac store_step :=
  first [ solve [auto with store]
        | apply preserves_bind; [|intros ?]
        | apply preserves_if ].

Lemma preserves_st_selectbox {A : Type} (show : A -> scalar) (label : string)
  (options : list A) (key : string) (position : nat) :
  preserves_store (st_selectbox show label options key position).
Proof. unfold st_selectbox. repeat store_step. Qed.

Lemma preserves_st_multiselect {A : Type} (show : A -> scalar) (label : string)
  (options default : list A) (state : option (list nat)) :
  preserves_store (st_multiselect show label options default state).
Proof. unfold st_multiselect. repeat store_step. Qed.

Lemma preserves_sns_barplot (data : loc) (y : option string) :
  preserves_store (sns_barplot data y).
Proof.
  unfold sns_barplot. store_step; [auto with store|].
  destruct y as [name|]; [|auto with store].
  destruct (barplot _ name); auto with store.
Qed.

Lemma preserves_sns_lineplot (data : loc) (y : option string) :
  preserves_store (sns_lineplot data y).
Proof.
  unfold sns_lineplot. store_step; [auto with store|].
  destruct y as [name|]; [|auto with store].
  destruct (lineplot _ name); auto with store.
Qed.

#[local] Hint Resolve preserves_st_selectbox preserves_st_multiselect
  preserves_sns_barplot preserves_sns_lineplot : store.

Lemma preserves_bar_chart (s : Session) (filtered : loc) (Y : list Z) :
  preserves_store (bar_chart s filtered Y).
Proof. unfold bar_chart. repeat store_step. Qed.

Lemma preserves_line_chart (s : Session) (filtered : loc) (R : list string) :
  preserves_store (line_chart s filtered R).
Proof. unfold line_chart. repeat store_step. Qed.

Lemma preserves_heatmap (filtered : loc) : preserves_store (heatmap filtered).
Proof. unfold heatmap. repeat store_step. Qed.

#[local] Hint Resolve preserves_bar_chart preserves_line_chart preserves_heatmap
  : store.

Lemma preserves_body (s : Session) (df : loc) : preserves_store (body s df).
Proof. unfold body. repeat store_step. Qed.

(** ** Running the script step by step *)

Lemma run_emit {A : Type} (e : element) (k : M A) (w : World) :
  (emit e ;; k) w = k (rendering w [e]).
Proof. reflexivity. Qed.

Lemma run_emit_last (e : element) (w : World) :
  emit e w = Returned tt (rendering w [e]).
Proof. reflexivity. Qed.

Lemma run_frame_at {A : Type} (l : loc) (d : DataFrame) (k : DataFrame -> M A)
  (w : World) :
  nth_error (heap w) l = Some (ODataFrame d) ->
  (x <- frame_at l ;; k x) w = k d w.
Proof. intros H. unfold bind, frame_at. now rewrite H. Qed.

Lemma run_derive {A : Type} (l : loc) (d : DataFrame) (f : DataFrame -> DataFrame)
  (k : loc -> M A) (w : World) :
  nth_error (heap w) l = Some (ODataFrame d) ->
  (x <- derive l f ;; k x) w =
  k (List.length (heap w)) (storing w (ODataFrame (f d))).
Proof. intros H. unfold derive, bind, frame_at, alloc. now rewrite H. Qed.

Lemma run_st_selectbox {A B : Type} (show : A -> scalar) (label : string)
  (options : list A) (key : string) (position : nat) (k : option A -> M B)
  (w : World) :
  (x <- st_selectbox show label options key position ;; k x) w =
  k (selectbox options position)
    (rendering w [Selectbox label (map show options) key]).
Proof. reflexivity. Qed.

Lemma run_st_multiselect {A B : Type} (show : A -> scalar) (label : string)
  (options default : list A) (state : option (list nat)) (k : list A -> M B)
  (w : World) :
  (x <- st_multiselect show label options default state ;; k x) w =
  k (multiselect options default state)
    (rendering w [SidebarMultiselect label (map show options) (map show default)]).
Proof. reflexivity. Qed.

Lemma run_bind_assoc {A B C : Type} (m : M A) (f : A -> M B) (g : B -> M C)
  (w : World) :
  (y <- (x <- m ;; f x) ;; g y) w = (x <- m ;; y <- f x ;; g y) w.
Proof. unfold bind. now destruct (m w). Qed.

Lemma rendering_rendering (w : World) (es es' : list element) :
  rendering (rendering w es) es' = rendering w (es ++ es')%list.
Proof. unfold rendering. simpl. now rewrite <- app_assoc. Qed.

Lemma heap_rendering (w : World) (es : list element) :
  heap (rendering w es) = heap w.
Proof. reflexivity. Qed.

Lemma stored_last (w : World) (o : object) :
  nth_error (heap (storing w o)) (List.length (heap w)) = Some o.
Proof.
  simpl. rewrite nth_error_app2 by lia. now rewrite Nat.sub_diag.
Qed.

Lemma stored_before (w : World) (o o' : object) (l : loc) :
  nth_error (heap w) l = Some o' -> nth_error (heap (storing w o)) l = Some o'.
Proof.
  intros H. simpl. rewrite nth_error_app1; [assumption|].
  apply nth_error_Some. congruence.
Qed.

Lemma empty_false (d : DataFrame) : rows d <> [] -> empty d = false.
Proof. unfold empty. now destruct (rows d). Qed.

Lemma empty_true (d : DataFrame) : rows d = [] -> empty d = true.
Proof. unfold empty. now intros ->. Qed.

(** ** The correlation heatmap stage *)

(** C5.  When the filtered frame is not empty and has fewer than two numeric
    columns, the stage renders its subheader and the warning, and the store
    is as before: no correlation matrix was built.  When the filtered frame
    is empty it renders the subheader and the informational note. *)
Theorem heatmap_placeholders (filtered : loc) (fd : DataFrame) (w : World) :
  nth_error (heap w) filtered = Some (ODataFrame fd) ->
  (rows fd <> [] -> (List.length (numeric_cols fd) < 2)%nat ->
   heatmap filtered w =
   Returned tt (rendering w [Subheader "🔥 상관관계 히트맵";
                             Warning too_few_columns_message]))
  /\ (rows fd = [] ->
      heatmap filtered w =
      Returned tt (rendering w [Subheader "🔥 상관관계 히트맵";
                                Info no_selection_message])).
Proof.
  intros H. unfold heatmap. rewrite run_emit.
  rewrite (run_frame_at filtered fd) by exact H.
  split.
  - intros Hne Hlen. rewrite (empty_false _ Hne). cbn [negb].
    assert (E : (1 <? List.length (numeric_cols fd))%nat = false)
      by (apply Nat.ltb_ge; lia).
    rewrite E. cbn [negb].
    rewrite run_emit_last. now rewrite rendering_rendering.
  - intros He. rewrite (empty_true _ He). cbn [negb].
    rewrite run_emit_last. now rewrite rendering_rendering.
Qed.

(** ** The bar chart stage *)

Lemma Qred_inject_Z (z : Z) : Qred (inject_Z z) = inject_Z z.
Proof.
  unfold Qred, inject_Z.
  pose proof (Z.ggcd_gcd z 1) as G.
  pose proof (Z.ggcd_correct_divisors z 1) as D.
  destruct (Z.ggcd z 1) as [g [r1 r2]]. cbn [fst snd] in *.
  rewrite Z.gcd_1_r in G. subst g. destruct D as [D1 D2].
  rewrite Z.mul_1_l in D1, D2. now subst r1 r2.
Qed.

Lemma mean_singleton (z : Z) : mean [z] = inject_Z z.
Proof.
  unfold mean. transitivity (Qred (inject_Z z)); [|apply Qred_inject_Z].
  apply Qred_complete.
  simpl. unfold Qdiv, Qinv, Qmult, Qeq, inject_Z. simpl. lia.
Qed.

Lemma filter_the_only {B : Type} (f : Row -> B) (eqb : B -> B -> bool)
  (eqb_eq : forall x y, eqb x y = true <-> x = y) (l : list Row) (r : Row) :
  NoDup (map f l) -> In r l ->
  filter (fun r' => eqb (f r') (f r)) l = [r].
Proof.
  induction l as [|a t IH]; simpl; [intros _ []|].
  intros Hnd Hin. inversion Hnd as [|? ? Ha Ht]; subst.
  assert (Hnone : forall x, ~ In (f x) (map f t) ->
            filter (fun r' => eqb (f r') (f x)) t = []).
  { intros x Hx. clear -Hx eqb_eq. induction t as [|b t IH]; simpl; [reflexivity|].
    destruct (eqb (f b) (f x)) eqn:E.
    - apply eqb_eq in E. exfalso. apply Hx. simpl. now left.
    - apply IH. intros F. apply Hx. simpl. now right. }
  destruct Hin as [->|Hin].
  - rewrite (proj2 (eqb_eq (f r) (f r)) eq_refl). f_equal. now apply Hnone.
  - destruct (eqb (f a) (f r)) eqn:E.
    + apply eqb_eq in E. exfalso. apply Ha. rewrite E. now apply in_map.
    + now apply IH.
Qed.

Lemma year_df_nonempty (fd : DataFrame) (c : option Z) :
  rows (year_df fd c) <> [] -> rows fd <> [] /\ c <> None.
Proof.
  unfold year_df, select_rows. simpl. intros H. split.
  - intros E. rewrite E in H. now apply H.
  - intros ->. apply H. clear H. now induction (rows fd).
Qed.

Lemma selectbox_Some_nonempty {A : Type} (options : list A) (n : nat) :
  selectbox options n <> None -> options <> [].
Proof.
  intros H ->. apply H. unfold selectbox. now destruct n.
Qed.

Lemma nonempty_length {A : Type} (l : list A) :
  l <> [] -> (0 <? List.length l)%nat = true.
Proof. destruct l; [congruence | reflexivity]. Qed.

(** C4, as the code has it.  The stage shows the informational note when no
    year is selected or the filtered frame is empty; otherwise it takes the
    rows of the filtered frame for the year chosen in the second selectbox
    and shows the warning when there are none; otherwise it plots one bar per
    distinct region of those rows, in order of first appearance, as tall as
    the mean of the chosen metric over that region's rows.  When no region
    repeats within the year, that is one bar per row, as tall as the row's
    metric cell. *)
Theorem bar_chart_stage (s : Session) (filtered : loc) (fd : DataFrame)
  (Y : list Z) (w : World) (metric : string) (cell : Row -> Z) :
  nth_error (heap w) filtered = Some (ODataFrame fd) ->
  selectbox metrics (pick_bar_metric s) = Some metric ->
  numeric_column fd metric = Some cell ->
  let comp_year := selectbox Y (pick_comp_year s) in
  let subset := year_df fd comp_year in
  let head :=
    [Subheader "📊 지역별 데이터 비교 (막대 그래프)";
     Selectbox "비교할 지표를 선택하세요:" (map SStr metrics) "bar_metric";
     Selectbox "비교할 연도를 선택하세요:" (map SInt Y) "comp_year"] in
  let bars :=
    map (fun g => (g, mean (map cell
           (filter (fun r => String.eqb (region r) g) (rows subset)))))
        (unique String.eqb (map region (rows subset))) in
  (Y = [] \/ rows fd = [] ->
   bar_chart s filtered Y w =
   Returned tt (rendering w [Subheader "📊 지역별 데이터 비교 (막대 그래프)";
                             Info no_selection_message]))
  /\ (Y <> [] -> rows fd <> [] -> rows subset = [] ->
      bar_chart s filtered Y w =
      Returned tt
        (rendering (storing w (ODataFrame subset))
           (head ++ [Warning "선택한 연도에 대한 데이터가 없습니다."])))
  /\ (rows subset <> [] ->
      bar_chart s filtered Y w =
      Returned tt
        (rendering (storing w (ODataFrame subset))
           (head ++ [Pyplot (BarPlot [show_opt SInt comp_year; SStr "년 지역별 ";
                                      SStr metric] bars)])))
  /\ (NoDup (map region (rows subset)) ->
      bars = map (fun r => (region r, inject_Z (cell r))) (rows subset)).
Proof.
  intros H Hm Hc comp_year subset head bars.
  assert (Hstage : forall k : M unit,
    Y <> [] -> rows fd <> [] ->
    (forall w', (if negb (empty subset) then
                   bars' <- sns_barplot (List.length (heap w)) (Some metric) ;;
                   emit (Pyplot (BarPlot [show_opt SInt comp_year; SStr "년 지역별 ";
                                          SStr metric] bars'))
                 else emit (Warning "선택한 연도에 대한 데이터가 없습니다.")) w' = k w') ->
    bar_chart s filtered Y w =
    k (rendering (storing w (ODataFrame subset)) head)).
  { intros k HY Hfd Hk. unfold bar_chart. rewrite run_emit.
    rewrite (run_frame_at filtered fd) by exact H.
    rewrite (empty_false _ Hfd), (nonempty_length _ HY). cbn [negb andb].
    rewrite !run_st_selectbox, Hm.
    rewrite (run_derive filtered fd) by exact H.
    rewrite (run_frame_at _ subset) by apply stored_last.
    rewrite <- Hk. unfold storing, rendering. simpl.
    now rewrite <- !app_assoc. }
  split; [|split; [|split]].
  - intros Hor. unfold bar_chart. rewrite run_emit.
    rewrite (run_frame_at filtered fd) by exact H.
    assert (E : negb (empty fd) && (0 <? List.length Y)%nat = false).
    { destruct Hor as [->|E]; [apply andb_false_r|].
      now rewrite (empty_true _ E). }
    rewrite E. rewrite run_emit_last. now rewrite rendering_rendering.
  - intros HY Hfd He.
    rewrite (Hstage (emit (Warning "선택한 연도에 대한 데이터가 없습니다.")) HY Hfd).
    + rewrite run_emit_last. now rewrite rendering_rendering.
    + intros w'. now rewrite (empty_true _ He).
  - intros Hne. destruct (year_df_nonempty _ _ Hne) as [Hfd Hcy].
    apply selectbox_Some_nonempty in Hcy.
    rewrite (Hstage (bars' <- sns_barplot (List.length (heap w)) (Some metric) ;;
                     emit (Pyplot (BarPlot [show_opt SInt comp_year; SStr "년 지역별 ";
                                            SStr metric] bars'))) Hcy Hfd).
    + unfold sns_barplot. rewrite run_bind_assoc.
      rewrite (run_frame_at _ subset)
        by (rewrite heap_rendering; apply stored_last).
      unfold barplot. change (numeric_column subset metric)
        with (numeric_column fd metric). rewrite Hc.
      unfold bind at 1. unfold ret at 1.
      rewrite run_emit_last. now rewrite rendering_rendering.
    + intros w'. now rewrite (empty_false _ Hne).
  - intros Hnd. subst bars.
    rewrite (unique_NoDup_id String.eqb String.eqb_eq _ Hnd), map_map.
    apply map_ext_in. intros r Hr.
    rewrite (filter_the_only region String.eqb String.eqb_eq _ _ Hnd Hr).
    simpl. now rewrite mean_singleton.
Qed.

Lemma bar_chart_stage_sample :
  bar_chart employed_picked 1%nat [2020] (sample_world [2020] ["A"; "B"]) =
  Returned tt
    (mkWorld
       [ODataFrame sample;
        ODataFrame (filtered_df sample [2020] ["A"; "B"]);
        ODataFrame (mkDF metrics [mkRow 2020 "A" [100; 90; 10];
                                  mkRow 2020 "B" [200; 180; 20]])]
       None
       [Subheader "📊 지역별 데이터 비교 (막대 그래프)";
        Selectbox "비교할 지표를 선택하세요:" (map SStr metrics) "bar_metric";
        Selectbox "비교할 연도를 선택하세요:" [SInt 2020] "comp_year";
        Pyplot (BarPlot [SInt 2020; SStr "년 지역별 "; SStr "취업자 (천명)"]
                        [("A", 90 # 1); ("B", 180 # 1)])]).
Proof.
  refine (proj1 (proj2 (proj2
    (bar_chart_stage employed_picked 1%nat (filtered_df sample [2020] ["A"; "B"])
       [2020] (sample_world [2020] ["A"; "B"]) "취업자 (천명)" employed
       _ _ _))) _).
  - reflexivity.
  - reflexivity.
  - reflexivity.
  - vm_compute. discriminate.
Defined.

(** C4, as stated, fails when a region occurs twice in the chosen year: the
    stage plots one bar for it, at the mean of the two cells, which is the
    cell of neither row. *)
Lemma bar_of_repeated_region_is_a_mean :
  bar_chart employed_picked 0%nat [2020] repeated_world =
  Returned tt
    (mkWorld [ODataFrame repeated; ODataFrame repeated] None
       [Subheader "📊 지역별 데이터 비교 (막대 그래프)";
        Selectbox "비교할 지표를 선택하세요:" (map SStr metrics) "bar_metric";
        Selectbox "비교할 연도를 선택하세요:" [SInt 2020] "comp_year";
        Pyplot (BarPlot [SInt 2020; SStr "년 지역별 "; SStr "취업자 (천명)"]
                        [("A", 95 # 1)])])
  /\ ~ bars_are_row_values employed repeated [("A", 95 # 1)].
Proof.
  split; [vm_compute; reflexivity|].
  intros H. destruct (H "A" (95 # 1) (or_introl eq_refl)) as (r & Hin & _ & Hq).
  destruct Hin as [<-|[<-|[]]]; vm_compute in Hq; discriminate.
Qed.

(** ** The line chart stage *)

Lemma region_df_nonempty (fd : DataFrame) (c : option string) :
  rows (region_df fd c) <> [] -> rows fd <> [] /\ c <> None.
Proof.
  unfold region_df, select_rows. simpl. intros H. split.
  - intros E. rewrite E in H. now apply H.
  - intros ->. apply H. clear H. now induction (rows fd).
Qed.

(** C6.  The stage plots the rows of the filtered frame whose region is the
    one chosen in the second selectbox; the points run in strictly ascending
    year, one per distinct year of those rows; and the x ticks are exactly
    the distinct years of those rows, ascending.  On the sample, region A and
    metric 취업자 over 2020 and 2021 give (2020, 90) then (2021, 95). *)
Theorem line_chart_stage (s : Session) (filtered : loc) (fd : DataFrame)
  (R : list string) (w : World) (metric : string) (cell : Row -> Z) :
  nth_error (heap w) filtered = Some (ODataFrame fd) ->
  selectbox metrics (pick_line_metric s) = Some metric ->
  numeric_column fd metric = Some cell ->
  let trend_region := selectbox R (pick_trend_region s) in
  let subset := region_df fd trend_region in
  let ticks := sorted Z.leb (unique Z.eqb (map year (rows subset))) in
  let points :=
    map (fun x => (x, mean (map cell
           (filter (fun r => Z.eqb (year r) x) (rows subset))))) ticks in
  rows subset <> [] ->
  line_chart s filtered R w =
  Returned tt
    (rendering (storing w (ODataFrame subset))
       [Subheader "📉 연도별 추세 분석 (라인 그래프)";
        Selectbox "분석할 지표를 선택하세요:" (map SStr metrics) "line_metric";
        Selectbox "분석할 지역을 선택하세요:" (map SStr R) "trend_region";
        Pyplot (LinePlot [show_opt SStr trend_region; SStr "의 연도별 ";
                          SStr metric; SStr " 변화 추이"] points ticks)])
  /\ (forall r, In r (rows subset) <->
                In r (rows fd) /\ trend_region = Some (region r))
  /\ Subsequence (rows subset) (rows fd)
  /\ map fst points = ticks
  /\ StronglySorted Z.lt ticks
  /\ (forall y, In y ticks <-> exists r, In r (rows subset) /\ year r = y)
  /\ lineplot (region_df (filtered_df sample [2020; 2021] ["A"]) (Some "A"))
               "취업자 (천명)" = Some [(2020, 90 # 1); (2021, 95 # 1)].
Proof.
  intros H Hm Hc trend_region subset ticks points Hne.
  destruct (region_df_nonempty _ _ Hne) as [Hfd Htr].
  pose proof (selectbox_Some_nonempty _ _ Htr) as HR.
  split; [|split; [|split; [|split; [|split; [|split]]]]].
  - unfold line_chart. rewrite run_emit.
    rewrite (run_frame_at filtered fd) by exact H.
    rewrite (empty_false _ Hfd), (nonempty_length _ HR). cbn [negb andb].
    rewrite !run_st_selectbox, Hm.
    rewrite (run_derive filtered fd) by exact H.
    rewrite (run_frame_at _ subset) by apply stored_last.
    rewrite (empty_false _ Hne). cbn [negb].
    unfold sns_lineplot. rewrite run_bind_assoc.
    rewrite (run_frame_at _ subset) by apply stored_last.
    unfold lineplot. change (numeric_column subset metric)
      with (numeric_column fd metric). rewrite Hc.
    unfold bind at 1. unfold ret at 1.
    rewrite run_emit_last. unfold storing, rendering. simpl.
    now rewrite <- !app_assoc.
  - intros r. unfold subset, region_df, select_rows. simpl.
    rewrite filter_In. fold trend_region.
    destruct trend_region as [g|]; [|intuition congruence].
    rewrite String.eqb_eq. intuition congruence.
  - apply filter_Subsequence.
  - unfold points. rewrite map_map. simpl. apply map_id.
  - apply sorted_Z_ascending. apply (unique_NoDup Z.eqb Z.eqb_eq).
  - intros y. unfold ticks.
    rewrite sorted_In, (unique_In Z.eqb Z.eqb_eq), in_map_iff.
    split; intros (r & A & B); exists r; tauto.
  - vm_compute. reflexivity.
Qed.

Lemma line_chart_stage_sample :
  line_chart employed_picked 1%nat ["A"] (sample_world [2020; 2021] ["A"]) =
  Returned tt
    (mkWorld
       [ODataFrame sample;
        ODataFrame (filtered_df sample [2020; 2021] ["A"]);
        ODataFrame (mkDF metrics [mkRow 2020 "A" [100; 90; 10];
                                  mkRow 2021 "A" [110; 95; 15]])]
       None
       [Subheader "📉 연도별 추세 분석 (라인 그래프)";
        Selectbox "분석할 지표를 선택하세요:" (map SStr metrics) "line_metric";
        Selectbox "분석할 지역을 선택하세요:" [SStr "A"] "trend_region";
        Pyplot (LinePlot [SStr "A"; SStr "의 연도별 "; SStr "취업자 (천명)";
                          SStr " 변화 추이"]
                         [(2020, 90 # 1); (2021, 95 # 1)] [2020; 2021])]).
Proof.
  refine (proj1
    (line_chart_stage employed_picked 1%nat (filtered_df sample [2020; 2021] ["A"])
       ["A"] (sample_world [2020; 2021] ["A"]) "취업자 (천명)" employed
       _ _ _ _)).
  - reflexivity.
  - reflexivity.
  - reflexivity.
  - vm_compute. discriminate.
Defined.

Lemma heatmap_placeholders_sample :
  heatmap 0%nat (mkWorld [ODataFrame labels_only] None []) =
  Returned tt (mkWorld [ODataFrame labels_only] None
                 [Subheader "🔥 상관관계 히트맵"; Warning too_few_columns_message])
  /\ heatmap 0%nat (mkWorld [ODataFrame (mkDF metrics [])] None []) =
     Returned tt (mkWorld [ODataFrame (mkDF metrics [])] None
                    [Subheader "🔥 상관관계 히트맵"; Info no_selection_message]).
Proof.
  split.
  - refine (proj1 (heatmap_placeholders 0%nat labels_only
                     (mkWorld [ODataFrame labels_only] None []) _) _ _).
    + reflexivity.
    + vm_compute. discriminate.
    + vm_compute. lia.
  - refine (proj2 (heatmap_placeholders 0%nat (mkDF metrics [])
                     (mkWorld [ODataFrame (mkDF metrics [])] None []) _) _).
    + reflexivity.
    + reflexivity.
Defined.

(** ** Loading *)

(** C2.  With no file at the path, a run ends normally, never by an
    exception: [load_data] renders the one error element and returns [None],
    and the run stops there, so the page holds that element and nothing of
    the body.  The same holds for every later run of the session, served
    from the cache. *)
Theorem missing_file_is_one_error (s : Session) :
  load_data NoSuchFile (mkWorld [] None []) =
  Returned None (mkWorld [] None [Error file_missing_message])
  /\ run NoSuchFile s None =
     Returned tt (mkWorld [] (Some missing_entry) [Error file_missing_message])
  /\ (forall file,
      run file s (Some missing_entry) =
      Returned tt (mkWorld [] (Some missing_entry) [Error file_missing_message])).
Proof.
  split; [reflexivity|]. split; [reflexivity|]. intros file. reflexivity.
Qed.

(** Any other failure of the read is not handled. *)
Example malformed_file_raises (s : Session) :
  run Malformed s None = Raised ParserError (mkWorld [] None []).
Proof. reflexivity. Qed.

Lemma emit_all_run (es : list element) (w : World) :
  emit_all es w = Returned tt (rendering w es).
Proof.
  revert w. induction es as [|e t IH]; intros w; simpl.
  - unfold ret, rendering. destruct w. simpl. now rewrite app_nil_r.
  - rewrite run_emit, IH. now rewrite rendering_rendering.
Qed.

Lemma run_table (d : DataFrame) (s : Session) :
  run (Table d) s None = body s 0%nat (loaded d []).
Proof. reflexivity. Qed.

Lemma run_cached (d : DataFrame) (es : list element) (file : csv) (s : Session) :
  run file s (Some (mkEntry (Some d) es)) = body s 0%nat (loaded d es).
Proof.
  unfold run, script. unfold bind at 1. unfold cache_data. cbn [cache].
  unfold bind at 1. rewrite emit_all_run. reflexivity.
Qed.

(** ** The filter stage inside a run *)

Lemma body_filter_stage (d : DataFrame) (s : Session) (es0 : list element) :
  let fd := filtered_df d (selected_years d s) (selected_regions d s) in
  exists es,
    page (world_of (body s 0%nat (loaded d es0))) =
    (es0 ++
     [Title "대한민국 경제활동 데이터 분석";
      SidebarHeader "데이터 필터";
      SidebarMultiselect "년도 선택" (map SInt (all_years d)) (map SInt (all_years d));
      SidebarMultiselect "지역 선택" (map SStr (all_regions d))
                         (map SStr (default_regions d));
      Header "필터링된 데이터";
      Write [SStr "총 "; SInt (Z.of_nat (List.length (rows fd))); SStr "개의 데이터"];
      Dataframe fd;
      ExpanderDescribe "📈 주요 통계 보기" fd;
      Header "데이터 시각화"] ++ es)%list
    /\ nth_error (heap (world_of (body s 0%nat (loaded d es0)))) 1 =
       Some (ODataFrame fd).
Proof.
  intros fd. unfold body.
  rewrite !run_emit. rewrite (run_frame_at 0%nat d) by reflexivity.
  rewrite !run_st_multiselect.
  fold (selected_years d s). fold (selected_regions d s).
  rewrite (run_derive 0%nat d) by reflexivity.
  rewrite (run_frame_at _ fd) by apply stored_last.
  rewrite !run_emit.
  match goal with
  | |- context [world_of (?m ?w)] =>
      assert (Hx : extends w (world_of (m w)))
  end.
  { repeat store_step. }
  destruct Hx as (Hh & _ & es & Hp).
  exists es. split.
  - rewrite Hp. simpl. rewrite <- !app_assoc. reflexivity.
  - apply Hh. reflexivity.
Qed.

(** ** The loaded frame is only read *)

(** C9.  Every step after the load preserves the store: the filter, the
    per-year and per-region subsets and the correlation matrix are new
    objects, and every object already in the store keeps its address and its
    value.  So at the end of a run, however it ends, the loaded frame is still
    at its address with every row and column as loaded, and the cache entry
    still holds it; this is so on the first run and on every run served from
    the cache. *)
Theorem loaded_dataset_never_mutated (d : DataFrame) (s : Session) :
  (forall src mask, preserves_store (derive src (select_rows mask)))
  /\ (forall filtered Y, preserves_store (bar_chart s filtered Y))
  /\ (forall filtered R, preserves_store (line_chart s filtered R))
  /\ (forall filtered, preserves_store (heatmap filtered))
  /\ (forall df, preserves_store (body s df))
  /\ nth_error (heap (world_of (run (Table d) s None))) 0 = Some (ODataFrame d)
  /\ cache (world_of (run (Table d) s None)) = Some (mkEntry (Some d) [])
  /\ (forall file es,
      nth_error (heap (world_of (run file s (Some (mkEntry (Some d) es))))) 0
      = Some (ODataFrame d)
      /\ cache (world_of (run file s (Some (mkEntry (Some d) es))))
         = Some (mkEntry (Some d) es)).
Proof.
  split; [intros; apply preserves_derive|].
  split; [intros; apply preserves_bar_chart|].
  split; [intros; apply preserves_line_chart|].
  split; [intros; apply preserves_heatmap|].
  split; [intros; apply preserves_body|].
  assert (Hrun : forall es,
            nth_error (heap (world_of (body s 0%nat (loaded d es)))) 0
            = Some (ODataFrame d)
            /\ cache (world_of (body s 0%nat (loaded d es)))
               = Some (mkEntry (Some d) es)).
  { intros es. destruct (preserves_body s 0%nat (loaded d es)) as (Hh & Hc & _).
    split; [now apply Hh | now rewrite Hc]. }
  rewrite run_table.
  split; [apply Hrun|]. split; [apply Hrun|].
  intros file es. rewrite run_cached. apply Hrun.
Qed.

(** ** Default selections *)

Lemma all_years_In (df : DataFrame) (y : Z) :
  In y (all_years df) <-> exists r, In r (rows df) /\ year r = y.
Proof.
  unfold all_years.
  rewrite sorted_In, (unique_In Z.eqb Z.eqb_eq), in_map_iff.
  split; intros (r & A & B); exists r; tauto.
Qed.

Lemma all_regions_In (df : DataFrame) (g : string) :
  In g (all_regions df) <-> exists r, In r (rows df) /\ region r = g.
Proof.
  unfold all_regions.
  rewrite sorted_In, (unique_In String.eqb String.eqb_eq), in_map_iff.
  split; intros (r & A & B); exists r; tauto.
Qed.

Lemma default_regions_In (df : DataFrame) (g : string) :
  In g (default_regions df) <->
  (exists r, In r (rows df) /\ region r = g) /\ g <> total_label.
Proof.
  unfold default_regions.
  rewrite filter_In, all_regions_In, negb_true_iff, String.eqb_neq. tauto.
Qed.


(** ** The correlation matrix *)

Lemma co_moment_self (xs : list Z) :
  co_moment xs xs = Qsum (map (fun q => (q * q)%Q) (deviations xs)).
Proof.
  unfold co_moment. f_equal.
  induction (deviations xs) as [|q t IH]; simpl; [reflexivity | now f_equal].
Qed.

Lemma Qsum_squares_nonneg (l : list Q) :
  (0 <= Qsum (map (fun q => q * q) l))%Q.
Proof.
  induction l as [|q t IH]; simpl; [apply Qle_refl|].
  assert (0 <= q * q)%Q by (unfold Qle, Qmult; simpl; nia). lra.
Qed.

Lemma Qsum_squares_zero (l : list Q) :
  (Qsum (map (fun q => q * q) l) == 0)%Q <-> Forall (fun q => (q == 0)%Q) l.
Proof.
  induction l as [|q t IH]; simpl.
  - split; [constructor | reflexivity].
  - pose proof (Qsum_squares_nonneg t) as Ht.
    assert (Hq : (0 <= q * q)%Q) by (unfold Qle, Qmult; simpl; nia).
    split.
    + intros H. constructor.
      * assert (Hz : (q * q == 0)%Q) by lra.
        unfold Qeq, Qmult in *. simpl in *. nia.
      * apply IH. lra.
    + intros H. inversion H as [|? ? Hq0 Ht0]; subst.
      apply IH in Ht0. rewrite Hq0, Ht0. reflexivity.
Qed.

Lemma sum_Z_constant (c : Z) (xs : list Z) :
  Forall (eq c) xs -> sum_Z xs = Z.of_nat (List.length xs) * c.
Proof.
  induction 1 as [|x t Hx _ IH]; [reflexivity|].
  subst x. cbn [sum_Z fold_right List.length]. fold (sum_Z t). lia.
Qed.

Lemma mean_constant (c : Z) (xs : list Z) :
  xs <> [] -> Forall (eq c) xs -> (mean xs == inject_Z c)%Q.
Proof.
  intros Hne Hc. unfold mean. rewrite Qred_correct, (sum_Z_constant c xs Hc).
  rewrite inject_Z_mult. field.
  intros E. change 0%Q with (inject_Z 0) in E. apply inject_Z_injective in E.
  destruct xs; [congruence | discriminate].
Qed.

(** The sum of squared deviations of a column vanishes exactly when the
    column is constant. *)
Lemma co_moment_zero_iff (xs : list Z) :
  (co_moment xs xs == 0)%Q <-> ~ varies xs.
Proof.
  rewrite co_moment_self, Qsum_squares_zero. unfold deviations.
  rewrite Forall_map, Forall_forall. split.
  - intros H (a & b & Ha & Hb & Hab). apply Hab.
    apply inject_Z_injective.
    pose proof (H a Ha) as Ea. pose proof (H b Hb) as Eb. simpl in Ea, Eb. lra.
  - intros Hv x Hx.
    assert (Hc : Forall (eq x) xs).
    { apply Forall_forall. intros y Hy.
      destruct (Z.eq_dec x y) as [E|E]; [assumption|].
      exfalso. apply Hv. now exists x, y. }
    assert (Hne : xs <> []) by (intros ->; contradiction).
    rewrite (mean_constant x xs Hne Hc). ring.
Qed.

Lemma varies_length (xs : list Z) : varies xs -> (2 <= List.length xs)%nat.
Proof.
  intros (a & b & Ha & Hb & Hab).
  destruct xs as [|x [|y t]]; simpl in *; [tauto| |lia].
  exfalso. destruct Ha as [<-|[]], Hb as [<-|[]]. now apply Hab.
Qed.

Lemma Q2R_zero : Q2R 0 = 0%R.
Proof. unfold Q2R. simpl. lra. Qed.

Lemma co_moment_self_positive (xs : list Z) :
  varies xs -> (0 < Q2R (co_moment xs xs))%R.
Proof.
  intros Hv. rewrite <- Q2R_zero. apply Qlt_Rlt.
  assert (H0 : (0 <= co_moment xs xs)%Q)
    by (rewrite co_moment_self; apply Qsum_squares_nonneg).
  assert (Hn : ~ (co_moment xs xs == 0)%Q)
    by (intros E; now apply co_moment_zero_iff in E).
  lra.
Qed.

Lemma pearson_defined (xs ys : list Z) :
  varies xs -> varies ys ->
  pearson xs ys =
  Some (Q2R (co_moment xs ys)
        / sqrt (Q2R (co_moment xs xs) * Q2R (co_moment ys ys)))%R.
Proof.
  intros Hx Hy. unfold pearson.
  destruct (Qeq_bool _ 0) eqn:E.
  - apply Qeq_bool_iff, Qmult_integral in E.
    destruct E as [E|E]; apply co_moment_zero_iff in E; contradiction.
  - now rewrite Q2R_mult.
Qed.

Lemma pearson_self_varies (xs : list Z) : varies xs -> pearson xs xs = Some 1%R.
Proof.
  intros Hv. rewrite (pearson_defined xs xs Hv Hv). f_equal.
  pose proof (co_moment_self_positive xs Hv) as Hpos.
  rewrite sqrt_square by lra. field. lra.
Qed.

Lemma pearson_self_constant (xs : list Z) : ~ varies xs -> pearson xs xs = None.
Proof.
  intros Hv. apply co_moment_zero_iff in Hv. unfold pearson.
  destruct (Qeq_bool _ 0) eqn:E; [reflexivity|].
  assert (F : Qeq_bool (co_moment xs xs * co_moment xs xs) 0 = true).
  { apply Qeq_bool_iff. rewrite Hv. ring. }
  congruence.
Qed.

Lemma pearson_is_by_the_book (xs ys : list Z) :
  List.length xs = List.length ys -> varies xs -> varies ys ->
  pearson xs ys = Some (pearson_by_the_book xs ys).
Proof.
  intros Hlen Hx Hy. rewrite (pearson_defined xs ys Hx Hy). f_equal.
  unfold pearson_by_the_book, std_dev, covariance. rewrite <- Hlen.
  pose proof (co_moment_self_positive xs Hx) as Hpx.
  pose proof (co_moment_self_positive ys Hy) as Hpy.
  assert (Hk : (0 < INR (List.length xs) - 1)%R).
  { pose proof (le_INR _ _ (varies_length xs Hx)) as Hn. simpl in Hn. lra. }
  set (a := Q2R (co_moment xs xs)) in *.
  set (b := Q2R (co_moment ys ys)) in *.
  set (k := (INR (List.length xs) - 1)%R) in *.
  rewrite (sqrt_div a k), (sqrt_div b k) by lra.
  rewrite (sqrt_mult a b) by lra.
  pose proof (sqrt_lt_R0 a Hpx). pose proof (sqrt_lt_R0 b Hpy).
  pose proof (sqrt_lt_R0 k Hk) as Hsk. pose proof (sqrt_def k (Rlt_le _ _ Hk)) as Hdk.
  replace (sqrt a / sqrt k * (sqrt b / sqrt k))%R
    with (sqrt a * sqrt b / (sqrt k * sqrt k))%R by (field; lra).
  rewrite Hdk. field. repeat split; lra.
Qed.

Lemma numeric_series_length (d : DataFrame) (xs : list Z) :
  In xs (numeric_series d) -> List.length xs = List.length (rows d).
Proof.
  unfold numeric_series. intros [<-|H].
  - apply length_map.
  - apply in_map_iff in H. destruct H as (i & <- & _). apply length_map.
Qed.

(** C8, as the code has it.  The stage hands the heatmap the matrix of
    [pearson] over all pairs of numeric columns of the filtered frame.  For
    two columns that both vary over the filtered rows the entry is
    cov(X,Y)/(σX·σY); the entry of a varying column with itself is exactly 1;
    the entry of a constant column with itself is NaN. *)
Theorem correlation_matrix (d : DataFrame) :
  (forall filtered w,
     nth_error (heap w) filtered = Some (ODataFrame d) ->
     rows d <> [] -> (1 < List.length (numeric_cols d))%nat ->
     heatmap filtered w =
     Returned tt
       (rendering (storing w (OCorr (corr d)))
          [Subheader "🔥 상관관계 히트맵";
           Pyplot (Heatmap [SStr "주요 지표 간 상관관계"] (numeric_cols d) (corr d))]))
  /\ List.length (numeric_series d) = List.length (numeric_cols d)
  /\ nth_error (numeric_series d) 0 = Some (map year (rows d))
  /\ (forall i, (i < List.length (num_columns d))%nat ->
      nth_error (numeric_series d) (S i) =
      Some (map (fun r => nth i (nums r) 0) (rows d)))
  /\ (forall i j xs ys,
      nth_error (numeric_series d) i = Some xs ->
      nth_error (numeric_series d) j = Some ys ->
      exists row, nth_error (corr d) i = Some row
                  /\ nth_error row j = Some (pearson xs ys))
  /\ (forall xs ys,
      In xs (numeric_series d) -> In ys (numeric_series d) ->
      varies xs -> varies ys ->
      pearson xs ys = Some (pearson_by_the_book xs ys))
  /\ (forall xs, varies xs -> pearson xs xs = Some 1%R)
  /\ (forall xs, ~ varies xs -> pearson xs xs = None).
Proof.
  split; [|split; [|split; [|split; [|split; [|split; [|split]]]]]].
  - intros filtered w H Hne Hlen. unfold heatmap. rewrite run_emit.
    rewrite (run_frame_at filtered d) by exact H.
    rewrite (empty_false _ Hne). cbn [negb].
    apply Nat.ltb_lt in Hlen. rewrite Hlen.
    unfold bind at 1. unfold alloc at 1.
    rewrite run_emit_last. unfold storing, rendering. simpl.
    now rewrite <- app_assoc.
  - unfold numeric_series, numeric_cols. simpl.
    now rewrite length_map, length_seq.
  - reflexivity.
  - intros i Hi. unfold numeric_series. cbn [nth_error].
    rewrite nth_error_map, nth_error_seq.
    apply Nat.ltb_lt in Hi. now rewrite Hi.
  - intros i j xs ys Hi Hj. unfold corr.
    rewrite nth_error_map, Hi. cbn [option_map]. eexists. split; [reflexivity|].
    now rewrite nth_error_map, Hj.
  - intros xs ys Hx Hy. apply pearson_is_by_the_book.
    now rewrite (numeric_series_length d xs Hx), (numeric_series_length d ys Hy).
  - apply pearson_self_varies.
  - apply pearson_self_constant.
Qed.

Lemma correlation_matrix_sample :
  pearson [90; 180; 95] [90; 180; 95] = Some 1%R.
Proof.
  refine (proj1 (proj2 (proj2 (proj2 (proj2 (proj2 (proj2
            (correlation_matrix sample))))))) [90; 180; 95] _).
  exists 90, 180. simpl. repeat split; [tauto | tauto | lia].
Defined.

(** C8, as stated, fails on a constant column: with the single year 2020
    selected, the entry of 년도 with itself is NaN, not 1. *)
Lemma self_correlation_of_single_year :
  nth_error (numeric_cols one_year) 0 = Some col_year
  /\ nth_error (numeric_series one_year) 0 = Some [2020; 2020]
  /\ (exists row, nth_error (corr one_year) 0 = Some row
                  /\ nth_error row 0 = Some None)
  /\ pearson [2020; 2020] [2020; 2020] <> Some 1%R.
Proof.
  split; [reflexivity|]. split; [reflexivity|]. split.
  - eexists. split; reflexivity.
  - assert (E : pearson [2020; 2020] [2020; 2020] = None) by reflexivity.
    rewrite E. discriminate.
Qed.


(** ** The sample of the specification *)

Example sample_filter :
  rows (filtered_df sample [2020] ["A"; "B"]) =
  [mkRow 2020 "A" [100; 90; 10]; mkRow 2020 "B" [200; 180; 20]].
Proof. reflexivity. Qed.

Example sample_defaults :
  selected_years sample untouched = [2020; 2021]
  /\ selected_regions sample untouched = ["A"; "B"].
Proof. split; reflexivity. Qed.

(** The warning of the heatmap is reachable in a whole run: on a file with
    no metric column the two charts end on their own warnings when the chosen
    year and region have no filtered row, and the run ends normally. *)
Example labels_only_run :
  run (Table labels_only) labels_session None =
  Returned tt
    (mkWorld
       [ODataFrame labels_only;
        ODataFrame (mkDF [] [mkRow 2020 "A" []]);
        ODataFrame (mkDF [] []);
        ODataFrame (mkDF [] [])]
       (Some (mkEntry (Some labels_only) []))
       [Title "대한민국 경제활동 데이터 분석";
        SidebarHeader "데이터 필터";
        SidebarMultiselect "년도 선택" [SInt 2020; SInt 2021; SInt 2022]
                           [SInt 2020; SInt 2021; SInt 2022];
        SidebarMultiselect "지역 선택" [SStr "A"; SStr "B"; SStr "D"]
                           [SStr "A"; SStr "B"; SStr "D"];
        Header "필터링된 데이터";
        Write [SStr "총 "; SInt 1; SStr "개의 데이터"];
        Dataframe (mkDF [] [mkRow 2020 "A" []]);
        ExpanderDescribe "📈 주요 통계 보기" (mkDF [] [mkRow 2020 "A" []]);
        Header "데이터 시각화";
        Subheader "📊 지역별 데이터 비교 (막대 그래프)";
        Selectbox "비교할 지표를 선택하세요:" (map SStr metrics) "bar_metric";
        Selectbox "비교할 연도를 선택하세요:" [SInt 2020; SInt 2021] "comp_year";
        Warning "선택한 연도에 대한 데이터가 없습니다.";
        Subheader "📉 연도별 추세 분석 (라인 그래프)";
        Selectbox "분석할 지표를 선택하세요:" (map SStr metrics) "line_metric";
        Selectbox "분석할 지역을 선택하세요:" [SStr "A"; SStr "D"] "trend_region";
        Warning "선택한 지역에 대한 데이터가 없습니다.";
        Subheader "🔥 상관관계 히트맵";
        Warning too_few_columns_message]).
Proof. vm_compute. reflexivity. Qed.

(** A metric column that the file lacks makes the bar chart raise. *)
Example missing_metric_raises :
  exists w, run (Table labels_only) untouched None = Raised ValueError w.
Proof. eexists. vm_compute. reflexivity. Qed.

(** The table a run shows is the filtered frame of its two selections. *)
Lemma run_renders_filtered (d : DataFrame) (s : Session) :
  In (Dataframe (filtered_df d (selected_years d s) (selected_regions d s)))
     (page (world_of (run (Table d) s None))).
Proof.
  rewrite run_table. destruct (body_filter_stage d s []) as (es & Hp & _).
  rewrite Hp. cbn [app In]. do 6 right. now left.
Qed.

(** * Further properties of the script *)

(** ** The filter and the selections *)

Lemma select_rows_ext (f g : Row -> bool) (d : DataFrame) :
  (forall r, In r (rows d) -> f r = g r) -> select_rows f d = select_rows g d.
Proof.
  intros H. unfold select_rows. f_equal. now apply filter_ext_in.
Qed.

Lemma bool_eq_iff (a b : bool) : (a = true <-> b = true) -> a = b.
Proof. destruct a, b; intuition congruence. Qed.

(** X1.  The filtered frame depends only on which years and regions are
    selected, not on the order of the selection or on repeats in it. *)
Theorem filter_ignores_selection_order (df : DataFrame) (Y Y' : list Z)
  (R R' : list string) :
  (forall y, In y Y <-> In y Y') -> (forall g, In g R <-> In g R') ->
  filtered_df df Y R = filtered_df df Y' R'.
Proof.
  intros HY HR. apply select_rows_ext. intros r _.
  apply bool_eq_iff. rewrite !filter_mask_true, HY, HR. tauto.
Qed.

Lemma filter_ignores_selection_order_sample :
  filtered_df sample [2020; 2021] ["A"; "B"] =
  filtered_df sample [2021; 2020; 2021] ["B"; "A"].
Proof.
  apply filter_ignores_selection_order; intros x; simpl; tauto.
Defined.

Lemma filter_filter_and {A : Type} (f g : A -> bool) (l : list A) :
  filter f (filter g l) = filter (fun x => g x && f x) l.
Proof.
  induction l as [|x t IH]; simpl; [reflexivity|].
  destruct (g x); simpl; [|assumption].
  destruct (f x); now rewrite IH.
Qed.

(** X2.  Two filters in a row commute, and together they keep exactly the
    rows whose year is in both year selections and whose region is in both
    region selections. *)
Theorem filters_commute (df : DataFrame) (Y Y' : list Z) (R R' : list string) :
  filtered_df (filtered_df df Y R) Y' R' = filtered_df (filtered_df df Y' R') Y R
  /\ forall r, In r (rows (filtered_df (filtered_df df Y R) Y' R')) <->
               In r (rows df) /\ (In (year r) Y /\ In (year r) Y')
               /\ (In (region r) R /\ In (region r) R').
Proof.
  split.
  - unfold filtered_df, select_rows. simpl. f_equal.
    rewrite !filter_filter_and. apply filter_ext. intros r. apply andb_comm.
  - intros r. rewrite !filtered_df_In. tauto.
Qed.

Lemma filter_Subsequence_impl {A : Type} (f g : A -> bool) (l : list A) :
  (forall x, f x = true -> g x = true) ->
  Subsequence (filter f l) (filter g l).
Proof.
  intros H. induction l as [|x t IH]; simpl; [constructor|].
  destruct (f x) eqn:E.
  - rewrite (H x E). now constructor.
  - destruct (g x); [now constructor | assumption].
Qed.

(** X3.  Deselecting years or regions only removes rows from the table: the
    rows of the narrower selection are a subsequence of the rows of the wider
    one. *)
Theorem narrowing_only_removes_rows (df : DataFrame) (Y Y' : list Z)
  (R R' : list string) :
  incl Y' Y -> incl R' R ->
  Subsequence (rows (filtered_df df Y' R')) (rows (filtered_df df Y R)).
Proof.
  intros HY HR. apply filter_Subsequence_impl. intros r.
  rewrite !filter_mask_true. intros [A B]. split; [now apply HY | now apply HR].
Qed.

Lemma narrowing_only_removes_rows_sample :
  Subsequence (rows (filtered_df sample [2020] ["A"]))
              (rows (filtered_df sample [2020; 2021] ["A"; "B"])).
Proof.
  apply narrowing_only_removes_rows; intros x; simpl; tauto.
Defined.

(** X4.  On a first visit, with both widgets untouched, the table holds
    exactly the rows of the file whose region is not "계", in file order. *)
Theorem first_visit_hides_the_total (d : DataFrame) (s : Session) :
  pick_years s = None -> pick_regions s = None ->
  rows (filtered_df d (selected_years d s) (selected_regions d s)) =
  filter (fun r => negb (String.eqb (region r) total_label)) (rows d).
Proof.
  intros Hy Hr. unfold selected_years, selected_regions. rewrite Hy, Hr.
  unfold multiselect, filtered_df, select_rows. simpl.
  apply filter_ext_in. intros r Hin. apply bool_eq_iff.
  rewrite filter_mask_true, all_years_In, default_regions_In.
  rewrite negb_true_iff, String.eqb_neq. split.
  - tauto.
  - intros Hne. split; [now exists r|]. split; [now exists r | assumption].
Qed.

Lemma first_visit_hides_the_total_sample :
  rows (filtered_df with_total (selected_years with_total untouched)
          (selected_regions with_total untouched)) = rows sample.
Proof.
  exact (first_visit_hides_the_total with_total untouched eq_refl eq_refl).
Defined.

Lemma selectbox_In {A : Type} (options : list A) (n : nat) :
  options <> [] -> exists x, selectbox options n = Some x /\ In x options.
Proof.
  intros Hne. unfold selectbox.
  destruct (nth_error options n) as [x|] eqn:E.
  - exists x. split; [reflexivity | eapply nth_error_In; eassumption].
  - destruct options as [|x t]; [congruence|]. exists x. simpl. auto.
Qed.

(** X5.  The rows the bar chart works on are exactly the rows of the file
    whose year is the one chosen in the year selectbox, which is one of the
    selected years, and whose region is selected. *)
Theorem bar_subset_of_the_file (df : DataFrame) (Y : list Z) (R : list string)
  (n : nat) :
  Y <> [] ->
  exists y, selectbox Y n = Some y /\ In y Y
    /\ rows (year_df (filtered_df df Y R) (selectbox Y n)) =
       filter (fun r => Z.eqb (year r) y && isin_str R (region r)) (rows df).
Proof.
  intros HY. destruct (selectbox_In Y n HY) as (y & E & Hin).
  exists y. split; [assumption|]. split; [assumption|].
  rewrite E. unfold year_df, filtered_df, select_rows. simpl.
  rewrite filter_filter_and. apply filter_ext. intros r.
  unfold filter_mask. destruct (Z.eqb (year r) y) eqn:Ey.
  - apply Z.eqb_eq in Ey. rewrite Ey.
    rewrite (proj2 (isin_Z_In Y y) Hin). simpl. now rewrite andb_true_r.
  - now rewrite andb_false_r.
Qed.

Lemma bar_subset_of_the_file_sample :
  exists y, selectbox [2020; 2021] 1 = Some y /\ In y [2020; 2021]
    /\ rows (year_df (filtered_df sample [2020; 2021] ["A"])
                     (selectbox [2020; 2021] 1)) =
       filter (fun r => Z.eqb (year r) y && isin_str ["A"] (region r)) (rows sample).
Proof.
  apply (bar_subset_of_the_file sample [2020; 2021] ["A"] 1). discriminate.
Defined.

(** X6.  The rows the line chart works on are exactly the rows of the file
    whose region is the one chosen in the region selectbox, which is one of
    the selected regions, and whose year is selected. *)
Theorem line_subset_of_the_file (df : DataFrame) (Y : list Z) (R : list string)
  (n : nat) :
  R <> [] ->
  exists g, selectbox R n = Some g /\ In g R
    /\ rows (region_df (filtered_df df Y R) (selectbox R n)) =
       filter (fun r => String.eqb (region r) g && isin_Z Y (year r)) (rows df).
Proof.
  intros HR. destruct (selectbox_In R n HR) as (g & E & Hin).
  exists g. split; [assumption|]. split; [assumption|].
  rewrite E. unfold region_df, filtered_df, select_rows. simpl.
  rewrite filter_filter_and. apply filter_ext. intros r.
  unfold filter_mask. destruct (String.eqb (region r) g) eqn:Eg.
  - apply String.eqb_eq in Eg. rewrite Eg.
    rewrite (proj2 (isin_str_In R g) Hin). now rewrite !andb_true_r.
  - now rewrite !andb_false_r.
Qed.

Lemma line_subset_of_the_file_sample :
  exists g, selectbox ["A"; "B"] 0 = Some g /\ In g ["A"; "B"]
    /\ rows (region_df (filtered_df sample [2021] ["A"; "B"])
                       (selectbox ["A"; "B"] 0)) =
       filter (fun r => String.eqb (region r) g && isin_Z [2021] (year r))
              (rows sample).
Proof.
  apply (line_subset_of_the_file sample [2021] ["A"; "B"] 0). discriminate.
Defined.

Lemma leb_ltb (a b : string) :
  String.leb a b = true -> a <> b -> String.ltb a b = true.
Proof.
  unfold String.leb, String.ltb. intros H Hne.
  destruct (String.compare a b) eqn:E; try reflexivity; try discriminate.
  apply String.compare_eq_iff in E. contradiction.
Qed.

(** X7.  Both filter widgets list their options in ascending order without
    repeats: the years strictly increasing, and each region strictly before
    the next in the order of their code points. *)
Theorem widget_options_ascending (df : DataFrame) :
  StronglySorted Z.lt (all_years df)
  /\ LocallySorted (fun a b => String.ltb a b = true) (all_regions df)
  /\ NoDup (all_regions df).
Proof.
  split; [apply sorted_Z_ascending, (unique_NoDup Z.eqb Z.eqb_eq)|].
  assert (Hnd : NoDup (all_regions df))
    by apply sorted_NoDup, (unique_NoDup String.eqb String.eqb_eq).
  split; [|assumption].
  assert (Hs : LocallySorted (fun a b => String.leb a b = true) (all_regions df))
    by (apply sorted_sorted, String.leb_total).
  induction Hs as [|a|a b t Hs IH Hab]; [constructor | constructor |].
  inversion Hnd as [|? ? Ha Ht]; subst.
  constructor; [now apply IH|].
  apply leb_ltb; [assumption|]. intros ->. apply Ha. now left.
Qed.

(** ** What each chart stage does, case by case *)

Lemma bar_chart_outcome (s : Session) (filtered : loc) (fd : DataFrame)
  (Y : list Z) (w : World) :
  nth_error (heap w) filtered = Some (ODataFrame fd) ->
  let comp_year := selectbox Y (pick_comp_year s) in
  let subset := year_df fd comp_year in
  let w1 := storing w (ODataFrame subset) in
  bar_chart s filtered Y w =
  if negb (empty fd) && (0 <? List.length Y)%nat then
    if negb (empty subset) then
      match selectbox metrics (pick_bar_metric s) with
      | Some m =>
          match barplot subset m with
          | Some bars =>
              Returned tt
                (rendering w1
                   (bar_head Y ++
                    [Pyplot (BarPlot [show_opt SInt comp_year; SStr "년 지역별 ";
                                      SStr m] bars)]))
          | None => Raised ValueError (rendering w1 (bar_head Y))
          end
      | None => Raised ValueError (rendering w1 (bar_head Y))
      end
    else
      Returned tt
        (rendering w1 (bar_head Y ++ [Warning "선택한 연도에 대한 데이터가 없습니다."]))
  else Returned tt (rendering w bar_note).
Proof.
  intros H comp_year subset w1. unfold bar_chart. rewrite run_emit.
  rewrite (run_frame_at filtered fd) by exact H.
  destruct (negb (empty fd) && (0 <? List.length Y)%nat).
  - rewrite !run_st_selectbox. fold comp_year.
    rewrite (run_derive filtered fd) by exact H. fold subset.
    rewrite (run_frame_at _ subset) by apply stored_last.
    assert (Hw : rendering
                   (storing
                      (rendering
                         (rendering
                            (rendering w [Subheader "📊 지역별 데이터 비교 (막대 그래프)"])
                            [Selectbox "비교할 지표를 선택하세요:" (map SStr metrics)
                               "bar_metric"])
                         [Selectbox "비교할 연도를 선택하세요:" (map SInt Y) "comp_year"])
                      (ODataFrame subset)) [] = rendering w1 (bar_head Y)).
    { unfold rendering, storing, w1, bar_head. simpl.
      now rewrite <- !app_assoc, app_nil_r. }
    destruct (negb (empty subset)).
    + unfold sns_barplot. rewrite run_bind_assoc.
      rewrite (run_frame_at _ subset) by apply stored_last.
      destruct (selectbox metrics (pick_bar_metric s)) as [m|].
      * destruct (barplot subset m) as [bars|].
        -- unfold bind at 1. unfold ret at 1. rewrite run_emit_last.
           unfold rendering, storing, w1, bar_head. simpl.
           now rewrite <- !app_assoc.
        -- unfold bind, raise. rewrite <- Hw.
           unfold rendering. simpl. now rewrite app_nil_r.
      * unfold bind, raise. rewrite <- Hw.
        unfold rendering. simpl. now rewrite app_nil_r.
    + rewrite run_emit_last. unfold rendering, storing, w1, bar_head. simpl.
      now rewrite <- !app_assoc.
  - rewrite run_emit_last. now rewrite rendering_rendering.
Qed.

Lemma line_chart_outcome (s : Session) (filtered : loc) (fd : DataFrame)
  (R : list string) (w : World) :
  nth_error (heap w) filtered = Some (ODataFrame fd) ->
  let trend_region := selectbox R (pick_trend_region s) in
  let subset := region_df fd trend_region in
  let w1 := storing w (ODataFrame subset) in
  line_chart s filtered R w =
  if negb (empty fd) && (0 <? List.length R)%nat then
    if negb (empty subset) then
      match selectbox metrics (pick_line_metric s) with
      | Some m =>
          match lineplot subset m with
          | Some points =>
              Returned tt
                (rendering w1
                   (line_head R ++
                    [Pyplot (LinePlot [show_opt SStr trend_region; SStr "의 연도별 ";
                                       SStr m; SStr " 변화 추이"] points
                               (sorted Z.leb (unique Z.eqb (map year (rows subset)))))]))
          | None => Raised ValueError (rendering w1 (line_head R))
          end
      | None => Raised ValueError (rendering w1 (line_head R))
      end
    else
      Returned tt
        (rendering w1 (line_head R ++ [Warning "선택한 지역에 대한 데이터가 없습니다."]))
  else Returned tt (rendering w line_note).
Proof.
  intros H trend_region subset w1. unfold line_chart. rewrite run_emit.
  rewrite (run_frame_at filtered fd) by exact H.
  destruct (negb (empty fd) && (0 <? List.length R)%nat).
  - rewrite !run_st_selectbox. fold trend_region.
    rewrite (run_derive filtered fd) by exact H. fold subset.
    rewrite (run_frame_at _ subset) by apply stored_last.
    destruct (negb (empty subset)).
    + unfold sns_lineplot. rewrite run_bind_assoc.
      rewrite (run_frame_at _ subset) by apply stored_last.
      destruct (selectbox metrics (pick_line_metric s)) as [m|].
      * destruct (lineplot subset m) as [points|].
        -- unfold bind at 1. unfold ret at 1. rewrite run_emit_last.
           unfold rendering, storing, w1, line_head. simpl.
           now rewrite <- !app_assoc.
        -- unfold bind, raise, rendering, storing, w1, line_head. simpl.
           now rewrite <- !app_assoc.
      * unfold bind, raise, rendering, storing, w1, line_head. simpl.
        now rewrite <- !app_assoc.
    + rewrite run_emit_last. unfold rendering, storing, w1, line_head. simpl.
      now rewrite <- !app_assoc.
  - rewrite run_emit_last. now rewrite rendering_rendering.
Qed.

Lemma heatmap_outcome (filtered : loc) (fd : DataFrame) (w : World) :
  nth_error (heap w) filtered = Some (ODataFrame fd) ->
  heatmap filtered w =
  if negb (empty fd) then
    if (1 <? List.length (numeric_cols fd))%nat then
      Returned tt
        (rendering (storing w (OCorr (corr fd)))
           [Subheader "🔥 상관관계 히트맵";
            Pyplot (Heatmap [SStr "주요 지표 간 상관관계"] (numeric_cols fd) (corr fd))])
    else
      Returned tt (rendering w [Subheader "🔥 상관관계 히트맵";
                                Warning too_few_columns_message])
  else Returned tt (rendering w heat_note).
Proof.
  intros H. unfold heatmap. rewrite run_emit.
  rewrite (run_frame_at filtered fd) by exact H.
  destruct (negb (empty fd)).
  - destruct (1 <? List.length (numeric_cols fd))%nat.
    + unfold bind at 1. unfold alloc at 1. rewrite run_emit_last.
      unfold rendering, storing. simpl. now rewrite <- app_assoc.
    + rewrite run_emit_last. now rewrite rendering_rendering.
  - rewrite run_emit_last. now rewrite rendering_rendering.
Qed.

Lemma body_charts (d : DataFrame) (s : Session) (es0 : list element) :
  let fd := filtered_df d (selected_years d s) (selected_regions d s) in
  body s 0%nat (loaded d es0) =
  (bar_chart s 1%nat (selected_years d s) ;;
   line_chart s 1%nat (selected_regions d s) ;;
   heatmap 1%nat)
    (rendering (storing (loaded d es0) (ODataFrame fd)) (table_part d fd)).
Proof.
  intros fd. unfold body.
  rewrite !run_emit. rewrite (run_frame_at 0%nat d) by reflexivity.
  rewrite !run_st_multiselect.
  fold (selected_years d s). fold (selected_regions d s).
  rewrite (run_derive 0%nat d) by reflexivity. fold fd.
  rewrite (run_frame_at _ fd) by apply stored_last.
  rewrite !run_emit.
  match goal with
  | |- _ ?w1 = _ ?w2 => replace w1 with w2; [reflexivity|]
  end.
  unfold rendering, storing, table_part. simpl. now rewrite <- !app_assoc.
Qed.

Lemma run_then {A B : Type} (m : M A) (k : A -> M B) (w w' : World) (a : A) :
  m w = Returned a w' -> (x <- m ;; k x) w = k a w'.
Proof. intros H. unfold bind. now rewrite H. Qed.

Lemma run_then_raised {A B : Type} (m : M A) (k : A -> M B) (w w' : World)
  (e : exn) :
  m w = Raised e w' -> (x <- m ;; k x) w = Raised e w'.
Proof. intros H. unfold bind. now rewrite H. Qed.

Lemma empty_iff (d : DataFrame) : empty d = true <-> rows d = [].
Proof. unfold empty. destruct (rows d); split; congruence. Qed.

(** ** The line chart's notes *)

(** X8.  The line chart shows the informational note when no region is
    selected or the filtered frame is empty; otherwise it takes the filtered
    rows of the region chosen in the second selectbox and, when there are
    none, shows the warning after the two selectboxes. *)
Theorem line_chart_placeholders (s : Session) (filtered : loc) (fd : DataFrame)
  (R : list string) (w : World) :
  nth_error (heap w) filtered = Some (ODataFrame fd) ->
  let subset := region_df fd (selectbox R (pick_trend_region s)) in
  (R = [] \/ rows fd = [] ->
   line_chart s filtered R w = Returned tt (rendering w line_note))
  /\ (R <> [] -> rows fd <> [] -> rows subset = [] ->
      line_chart s filtered R w =
      Returned tt
        (rendering (storing w (ODataFrame subset))
           (line_head R ++ [Warning "선택한 지역에 대한 데이터가 없습니다."]))).
Proof.
  intros H subset. rewrite (line_chart_outcome s filtered fd R w H). split.
  - intros Hor.
    assert (E : negb (empty fd) && (0 <? List.length R)%nat = false).
    { destruct Hor as [->|E]; [apply andb_false_r|].
      now rewrite (empty_true _ E). }
    now rewrite E.
  - intros HR Hfd He.
    rewrite (empty_false _ Hfd), (nonempty_length _ HR). cbn [negb andb].
    fold subset. now rewrite (empty_true _ He).
Qed.

Lemma line_chart_placeholders_sample :
  line_chart untouched 1%nat [] (sample_world [2020] []) =
  Returned tt (rendering (sample_world [2020] []) line_note)
  /\ line_chart untouched 1%nat ["B"] (sample_world [2021] ["A"; "B"]) =
     Returned tt
       (rendering (storing (sample_world [2021] ["A"; "B"])
                     (ODataFrame (mkDF metrics [])))
          (line_head ["B"] ++ [Warning "선택한 지역에 대한 데이터가 없습니다."])).
Proof.
  split.
  - refine (proj1 (line_chart_placeholders untouched 1%nat
                     (filtered_df sample [2020] []) [] (sample_world [2020] []) _) _).
    + reflexivity.
    + now left.
  - refine (proj2 (line_chart_placeholders untouched 1%nat
                     (filtered_df sample [2021] ["A"; "B"]) ["B"]
                     (sample_world [2021] ["A"; "B"]) _) _ _ _).
    + reflexivity.
    + discriminate.
    + vm_compute. discriminate.
    + reflexivity.
Defined.

(** ** Missing metric columns *)

Lemma index_of_absent (name : string) (names : list string) :
  ~ In name names -> index_of name names = None.
Proof.
  induction names as [|n t IH]; simpl; [reflexivity|]. intros H.
  destruct (String.eqb name n) eqn:E.
  - apply String.eqb_eq in E. exfalso. apply H. now left.
  - rewrite IH; [reflexivity|]. intros F. apply H. now right.
Qed.

Lemma absent_column (d : DataFrame) (name : string) :
  ~ In name (columns d) -> numeric_column d name = None.
Proof.
  intros H. unfold numeric_column.
  destruct (String.eqb name col_year) eqn:E.
  - apply String.eqb_eq in E. exfalso. apply H. left. now symmetry.
  - rewrite index_of_absent; [reflexivity|].
    intros F. apply H. right. now right.
Qed.

(** X9.  When the metric chosen for the bar chart names no column of the
    file and the chosen year has filtered rows, the run ends in a ValueError
    raised by the bar plot: the page stops after the bar chart's two
    selectboxes, so neither the line chart nor the heatmap is rendered. *)
Theorem run_raises_without_bar_metric (d : DataFrame) (s : Session) (m : string) :
  let Y := selected_years d s in
  let fd := filtered_df d Y (selected_regions d s) in
  let subset := year_df fd (selectbox Y (pick_comp_year s)) in
  selectbox metrics (pick_bar_metric s) = Some m ->
  ~ In m (columns d) ->
  rows subset <> [] ->
  run (Table d) s None =
  Raised ValueError
    (mkWorld [ODataFrame d; ODataFrame fd; ODataFrame subset]
             (Some (mkEntry (Some d) []))
             (table_part d fd ++ bar_head Y)).
Proof.
  intros Y fd subset Hm Hc Hne. apply absent_column in Hc.
  rewrite run_table, body_charts. fold Y. fold fd.
  destruct (year_df_nonempty _ _ Hne) as [Hfd Hcy].
  apply selectbox_Some_nonempty in Hcy.
  erewrite run_then_raised; [reflexivity|].
  rewrite (bar_chart_outcome s 1%nat fd Y) by reflexivity.
  rewrite (empty_false _ Hfd), (nonempty_length _ Hcy). cbn [negb andb].
  fold subset. rewrite (empty_false _ Hne). cbn [negb]. rewrite Hm.
  unfold barplot. change (numeric_column subset m) with (numeric_column d m).
  rewrite Hc. reflexivity.
Qed.

Lemma run_raises_without_bar_metric_sample :
  is_raised (run (Table labels_only) untouched None) = true.
Proof.
  rewrite (run_raises_without_bar_metric labels_only untouched "경제활동인구 (천명)").
  - reflexivity.
  - reflexivity.
  - simpl. intros [E|[E|[]]]; discriminate.
  - vm_compute. discriminate.
Defined.

(** X10.  Likewise in the line chart: when the chosen metric names no
    column of the filtered frame and the chosen region has filtered rows,
    the stage raises a ValueError after its two selectboxes. *)
Theorem line_chart_raises_without_metric (s : Session) (filtered : loc)
  (fd : DataFrame) (R : list string) (w : World) (m : string) :
  nth_error (heap w) filtered = Some (ODataFrame fd) ->
  let subset := region_df fd (selectbox R (pick_trend_region s)) in
  selectbox metrics (pick_line_metric s) = Some m ->
  ~ In m (columns fd) ->
  rows subset <> [] ->
  line_chart s filtered R w =
  Raised ValueError (rendering (storing w (ODataFrame subset)) (line_head R)).
Proof.
  intros H subset Hm Hc Hne. apply absent_column in Hc.
  rewrite (line_chart_outcome s filtered fd R w H).
  destruct (region_df_nonempty _ _ Hne) as [Hfd Htr].
  apply selectbox_Some_nonempty in Htr.
  rewrite (empty_false _ Hfd), (nonempty_length _ Htr). cbn [negb andb].
  fold subset. rewrite (empty_false _ Hne). cbn [negb]. rewrite Hm.
  unfold lineplot. change (numeric_column subset m) with (numeric_column fd m).
  now rewrite Hc.
Qed.

Lemma line_chart_raises_without_metric_sample :
  line_chart untouched 0%nat ["A"] (mkWorld [ODataFrame labels_only] None []) =
  Raised ValueError
    (rendering (storing (mkWorld [ODataFrame labels_only] None [])
                  (ODataFrame (mkDF [] [mkRow 2020 "A" []])))
       (line_head ["A"])).
Proof.
  refine (line_chart_raises_without_metric untouched 0%nat labels_only ["A"]
            (mkWorld [ODataFrame labels_only] None []) "경제활동인구 (천명)" _ _ _ _).
  - reflexivity.
  - reflexivity.
  - simpl. intros [E|[E|[]]]; discriminate.
  - vm_compute. discriminate.
Defined.

(** ** Runs that end normally *)

Lemma filtered_df_nothing_selected (d : DataFrame) (Y : list Z) (R : list string) :
  Y = [] \/ R = [] -> filtered_df d Y R = mkDF (num_columns d) [].
Proof.
  intros Hor. unfold filtered_df, select_rows. f_equal.
  induction (rows d) as [|r t IH]; simpl; [reflexivity|].
  assert (E : filter_mask Y R r = false).
  { unfold filter_mask. destruct Hor as [->| ->]; simpl;
      [reflexivity | apply andb_false_r]. }
  now rewrite E.
Qed.

(** X11.  For a file of the data model, when no year or no region is
    selected the run ends normally, also when metric columns are missing:
    the count line says 0, the table is empty, and each of the three panels
    shows only its subheader and the informational note. *)
Theorem nothing_selected_run (d : DataFrame) (s : Session) :
  selected_years d s = [] \/ selected_regions d s = [] ->
  let none := mkDF (num_columns d) [] in
  run (Table d) s None =
  Returned tt
    (mkWorld [ODataFrame d; ODataFrame none]
             (Some (mkEntry (Some d) []))
             (table_part d none ++ bar_note ++ line_note ++ heat_note)).
Proof.
  intros Hor none. rewrite run_table, body_charts.
  rewrite (filtered_df_nothing_selected d _ _ Hor). fold none.
  erewrite run_then
    by (rewrite (bar_chart_outcome s 1%nat none) by reflexivity; reflexivity).
  erewrite run_then
    by (rewrite (line_chart_outcome s 1%nat none) by reflexivity; reflexivity).
  rewrite (heatmap_outcome 1%nat none) by reflexivity.
  reflexivity.
Qed.

Lemma nothing_selected_run_sample :
  run (Table sample) (mkSession (Some []) None 0 0 0 0) None =
  Returned tt
    (mkWorld [ODataFrame sample; ODataFrame (mkDF metrics [])]
             (Some (mkEntry (Some sample) []))
             (table_part sample (mkDF metrics []) ++ bar_note ++ line_note
              ++ heat_note)).
Proof.
  apply (nothing_selected_run sample (mkSession (Some []) None 0 0 0 0)).
  left. reflexivity.
Defined.

(** ** The cache across runs *)

(** X13.  Once a run has loaded the file, every later run of the session
    works on that dataset whatever is then at the path (another table, a
    malformed file, no file): it ends exactly as a first run on the original
    file would. *)
Theorem later_runs_use_the_cached_dataset (d : DataFrame) (s0 s : Session)
  (file : csv) :
  run file s (cache (world_of (run (Table d) s0 None))) = run (Table d) s None.
Proof.
  assert (E : cache (world_of (run (Table d) s0 None))
              = Some (mkEntry (Some d) [])).
  { rewrite run_table.
    destruct (preserves_body s0 0%nat (loaded d [])) as (_ & Hc & _).
    now rewrite Hc. }
  rewrite E, run_cached, run_table. reflexivity.
Qed.

(** X14.  A read failure other than a missing file is not handled: the run
    raises it with nothing rendered, and nothing is cached, so the next run
    reads the file again. *)
Theorem other_read_errors_propagate (s s' : Session) (file : csv) :
  run Malformed s None = Raised ParserError (mkWorld [] None [])
  /\ run file s' (cache (world_of (run Malformed s None))) = run file s' None.
Proof. split; reflexivity. Qed.

(** ** More on the correlation matrix *)

Lemma Qmult_comm_eq (a b : Q) : (a * b)%Q = (b * a)%Q.
Proof.
  unfold Qmult. f_equal; [apply Z.mul_comm | apply Pos.mul_comm].
Qed.

Lemma co_moment_sym (xs ys : list Z) : co_moment xs ys = co_moment ys xs.
Proof.
  unfold co_moment. generalize (deviations xs) (deviations ys).
  intros l1. induction l1 as [|a t IH]; intros [|b u]; simpl; try reflexivity.
  now rewrite IH, Qmult_comm_eq.
Qed.

Lemma pearson_sym (xs ys : list Z) : pearson xs ys = pearson ys xs.
Proof.
  unfold pearson.
  now rewrite (co_moment_sym xs ys),
    (Qmult_comm_eq (co_moment xs xs) (co_moment ys ys)).
Qed.

(** X15.  The correlation matrix is square, with one row and one column per
    numeric column of the frame, and symmetric: the cell at (i, j) is the
    cell at (j, i). *)
Theorem corr_square_and_symmetric (d : DataFrame) :
  List.length (corr d) = List.length (numeric_cols d)
  /\ Forall (fun row => List.length row = List.length (numeric_cols d)) (corr d)
  /\ forall i j, entry (corr d) i j = entry (corr d) j i.
Proof.
  assert (Hlen : List.length (numeric_series d) = List.length (numeric_cols d)).
  { unfold numeric_series, numeric_cols. simpl.
    now rewrite length_map, length_seq. }
  split; [unfold corr; now rewrite length_map|].
  split.
  - unfold corr. apply Forall_map, Forall_forall. intros xs _.
    now rewrite length_map.
  - intros i j. unfold entry, corr. rewrite !nth_error_map.
    destruct (nth_error (numeric_series d) i) as [xs|] eqn:Ei;
      destruct (nth_error (numeric_series d) j) as [ys|] eqn:Ej;
      cbn [option_map]; rewrite ?nth_error_map, ?Ei, ?Ej; cbn [option_map];
      try reflexivity.
    now rewrite pearson_sym.
Qed.

Lemma Qsquare_nonneg (x : Q) : (0 <= x * x)%Q.
Proof. unfold Qle, Qmult. simpl. nia. Qed.

Lemma Qsq_le (x y : Q) : (0 <= y -> x * x <= y * y -> x <= y)%Q.
Proof. intros Hy H. nra. Qed.

Lemma cauchy_schwarz (l1 l2 : list Q) :
  (Qsum (map (fun p => fst p * snd p) (combine l1 l2))
   * Qsum (map (fun p => fst p * snd p) (combine l1 l2))
   <= Qsum (map (fun q => q * q) l1) * Qsum (map (fun q => q * q) l2))%Q.
Proof.
  revert l2. induction l1 as [|a t IH]; intros [|b u]; simpl.
  - lra.
  - lra.
  - pose proof (Qsum_squares_nonneg t) as Ht.
    pose proof (Qsquare_nonneg a). nra.
  - specialize (IH u).
    pose proof (Qsum_squares_nonneg t) as Ht.
    pose proof (Qsum_squares_nonneg u) as Hu.
    set (T12 := Qsum (map (fun p => (fst p * snd p)%Q) (combine t u))) in *.
    set (T11 := Qsum (map (fun q => (q * q)%Q) t)) in *.
    set (T22 := Qsum (map (fun q => (q * q)%Q) u)) in *.
    clearbody T12 T11 T22.
    assert (Hk : (2 * (a * b) * T12 <= a * a * T22 + b * b * T11)%Q).
    { apply Qsq_le.
      - pose proof (Qmult_le_0_compat _ _ (Qsquare_nonneg a) Hu).
        pose proof (Qmult_le_0_compat _ _ (Qsquare_nonneg b) Ht). lra.
      - pose proof (Qsquare_nonneg (a * a * T22 - b * b * T11)) as Hd.
        assert (Hp : (0 <= (a * b) * (a * b) * (T11 * T22 - T12 * T12))%Q).
        { apply Qmult_le_0_compat; [apply Qsquare_nonneg | lra]. }
        lra. }
    lra.
Qed.

(** X16.  Every defined cell of the correlation matrix lies between -1 and 1. *)
Theorem correlation_within_bounds (xs ys : list Z) (r : R) :
  pearson xs ys = Some r -> (-1 <= r <= 1)%R.
Proof.
  unfold pearson.
  destruct (Qeq_bool _ 0) eqn:E; [discriminate|]. intros [= <-].
  assert (Hn : ~ (co_moment xs xs * co_moment ys ys == 0)%Q).
  { intros F. apply Qeq_bool_iff in F. congruence. }
  assert (Hxx : (0 <= co_moment xs xs)%Q)
    by (rewrite co_moment_self; apply Qsum_squares_nonneg).
  assert (Hyy : (0 <= co_moment ys ys)%Q)
    by (rewrite co_moment_self; apply Qsum_squares_nonneg).
  assert (Hcs : (co_moment xs ys * co_moment xs ys
                 <= co_moment xs xs * co_moment ys ys)%Q).
  { rewrite (co_moment_self xs), (co_moment_self ys). apply cauchy_schwarz. }
  set (p := (co_moment xs xs * co_moment ys ys)%Q) in *.
  assert (Hp : (0 < p)%Q).
  { assert (0 <= p)%Q by (unfold p; nra). lra. }
  apply Qlt_Rlt in Hp. rewrite Q2R_zero in Hp.
  apply Qle_Rle in Hcs. rewrite Q2R_mult in Hcs.
  set (c := Q2R (co_moment xs ys)) in *. set (P := Q2R p) in *.
  pose proof (sqrt_lt_R0 P Hp) as Ht.
  pose proof (sqrt_def P (Rlt_le _ _ Hp)) as Hd.
  set (t := sqrt P) in *.
  assert (Hc : (- t <= c <= t)%R) by (split; nra).
  split.
  - apply (Rmult_le_reg_r t); [assumption|].
    unfold Rdiv. rewrite Rmult_assoc, Rinv_l by lra. lra.
  - apply (Rmult_le_reg_r t); [assumption|].
    unfold Rdiv. rewrite Rmult_assoc, Rinv_l by lra. lra.
Qed.

Lemma correlation_within_bounds_sample :
  (-1 <= Q2R (co_moment [1; 2; 4]%Z [3; 1; 2]%Z)
         / sqrt (Q2R (co_moment [1; 2; 4]%Z [1; 2; 4]%Z
                      * co_moment [3; 1; 2]%Z [3; 1; 2]%Z)%Q)
   <= 1)%R.
Proof.
  apply (correlation_within_bounds [1; 2; 4] [3; 1; 2]). reflexivity.
Defined.

(** ** More on the bar plot *)

Lemma sum_Z_bounds (lo hi : Z) (l : list Z) :
  Forall (fun v => lo <= v <= hi) l ->
  Z.of_nat (List.length l) * lo <= sum_Z l <= Z.of_nat (List.length l) * hi.
Proof.
  induction 1 as [|v t Hv _ IH]; [simpl; lia|].
  cbn [sum_Z fold_right List.length]. fold (sum_Z t). lia.
Qed.

Lemma mean_between (lo hi : Z) (l : list Z) :
  l <> [] -> Forall (fun v => lo <= v <= hi) l ->
  (inject_Z lo <= mean l <= inject_Z hi)%Q.
Proof.
  intros Hne Hb. unfold mean. rewrite Qred_correct.
  pose proof (sum_Z_bounds lo hi l Hb) as [Hlo Hhi].
  assert (Hn : 0 < Z.of_nat (List.length l)) by (destruct l; [congruence | simpl; lia]).
  assert (Hq : (0 < inject_Z (Z.of_nat (List.length l)))%Q).
  { change 0%Q with (inject_Z 0). now rewrite <- Zlt_Qlt. }
  split.
  - apply Qle_shift_div_l; [assumption|].
    rewrite <- inject_Z_mult, <- Zle_Qle. lia.
  - apply Qle_shift_div_r; [assumption|].
    rewrite <- inject_Z_mult, <- Zle_Qle. lia.
Qed.

(** X17.  For a metric that is a numeric column, the bar plot draws exactly
    one bar per region that occurs in its data, so never more bars than
    rows, and every bar is at least as tall as the smallest and at most as
    tall as the largest metric cell among the rows of its region. *)
Theorem bars_of_the_plot (data : DataFrame) (y : string) (cell : Row -> Z) :
  numeric_column data y = Some cell ->
  exists bars,
    barplot data y = Some bars
    /\ NoDup (map fst bars)
    /\ (forall g, In g (map fst bars) <->
                  exists r, In r (rows data) /\ region r = g)
    /\ (List.length bars <= List.length (rows data))%nat
    /\ (forall g h lo hi,
          In (g, h) bars ->
          (forall r, In r (rows data) -> region r = g -> lo <= cell r <= hi) ->
          (inject_Z lo <= h <= inject_Z hi)%Q).
Proof.
  intros Hc. unfold barplot. rewrite Hc. eexists. split; [reflexivity|].
  set (regions := unique String.eqb (map region (rows data))).
  assert (Hfst : forall F : string -> Q,
            map fst (map (fun g => (g, F g)) regions) = regions).
  { intros F. rewrite map_map. simpl. apply map_id. }
  assert (Hnd : NoDup regions) by apply (unique_NoDup String.eqb String.eqb_eq).
  assert (Hin : forall g, In g regions <->
                          exists r, In r (rows data) /\ region r = g).
  { intros g. unfold regions.
    rewrite (unique_In String.eqb String.eqb_eq), in_map_iff.
    split; intros (r & A & B); exists r; tauto. }
  split; [now rewrite Hfst|]. split; [intros g; now rewrite Hfst|]. split.
  - rewrite length_map. rewrite <- (length_map region (rows data)).
    apply NoDup_incl_length; [assumption|].
    intros g Hg. unfold regions in Hg.
    now rewrite (unique_In String.eqb String.eqb_eq) in Hg.
  - intros g h lo hi Hbar Hb.
    apply in_map_iff in Hbar. destruct Hbar as (g0 & [= -> <-] & Hg).
    apply Hin in Hg. destruct Hg as (r & Hr & Er).
    apply mean_between.
    + intros E. apply map_eq_nil in E.
      assert (Hf : In r (filter (fun r0 => String.eqb (region r0) g) (rows data))).
      { apply filter_In. split; [assumption | now apply String.eqb_eq]. }
      rewrite E in Hf. contradiction.
    + apply Forall_map, Forall_forall. intros r0 Hr0.
      apply filter_In in Hr0. destruct Hr0 as [Hin0 E0].
      apply String.eqb_eq in E0. now apply Hb.
Qed.

Lemma bars_of_the_plot_sample :
  exists bars,
    barplot repeated "취업자 (천명)" = Some bars
    /\ NoDup (map fst bars)
    /\ (forall g, In g (map fst bars) <->
                  exists r, In r (rows repeated) /\ region r = g)
    /\ (List.length bars <= List.length (rows repeated))%nat
    /\ (forall g h lo hi,
          In (g, h) bars ->
          (forall r, In r (rows repeated) -> region r = g ->
                     lo <= employed r <= hi) ->
          (inject_Z lo <= h <= inject_Z hi)%Q).
Proof.
  apply (bars_of_the_plot repeated "취업자 (천명)" employed). reflexivity.
Defined.
